(** * Seccomp profile builders of [rule.h]

    A shallow embedding of [c_cpp_rules], [python3_rules] and [general_rules]
    from [src/rule.h], together with a model of the part of libseccomp and of
    the kernel's filter evaluation that these functions rely on.

    The three builders are C functions that talk to libseccomp through four
    calls ([seccomp_init], [seccomp_rule_add], [seccomp_load],
    [seccomp_release]) and leave early with [return LOAD_SECCOMP_FAILED].
    They are embedded in a state monad over the process state with a second
    outcome for an executed [return]. *)

From stdpp Require Import base numbers list.
From Stdlib Require Import ZArith Lia.

Local Open Scope Z_scope.

(** ** libseccomp data *)

Module Seccomp.

(** The two filter actions the builders use. *)
Inductive scmp_action : Type :=
| SCMP_ACT_KILL
| SCMP_ACT_ALLOW.

(** [enum scmp_compare]. *)
Inductive scmp_compare : Type :=
| SCMP_CMP_NE
| SCMP_CMP_LT
| SCMP_CMP_LE
| SCMP_CMP_EQ
| SCMP_CMP_GE
| SCMP_CMP_GT
| SCMP_CMP_MASKED_EQ.

(** [struct scmp_arg_cmp]; for [SCMP_CMP_MASKED_EQ] the first datum is the
    mask and the second the value. *)
Record scmp_arg_cmp : Type := SCMP_CMP {
  arg : nat;
  op : scmp_compare;
  datum_a : Z;
  datum_b : Z
}.

(** [SCMP_A0(op, datum)]: a comparison on argument 0. *)
Definition SCMP_A0 (o : scmp_compare) (d : Z) : scmp_arg_cmp := SCMP_CMP 0 o d 0.

(** The cast [(scmp_datum_t) p] of a pointer: [scmp_datum_t] is [uint64_t]. *)
Definition scmp_datum_t (p : Z) : Z := p mod 2 ^ 64.

(** The system calls named in [rule.h]. *)
Inductive sysname : Type :=
| execve
| read | fstat | mmap | mprotect | munmap | uname | arch_prctl | brk
| access | exit_group | close | readlink | sysinfo | write | writev | lseek
| clock_gettime | fcntl | pread64 | faccessat | newfstatat | set_tid_address
| set_robust_list | rseq | prlimit64 | futex | getrandom
| socket | connect | bind | listen | accept | sendto | recvfrom | setsockopt
| getsockopt | getpeername | getsockname
| open | openat | dup | dup2 | dup3
| clone | fork | vfork | kill.

(** [SCMP_SYS(name)]: the system-call number, here those of Linux on x86-64
    (the architecture that has [arch_prctl]). *)
Definition SCMP_SYS (s : sysname) : Z :=
  match s with
  | read => 0 | write => 1 | open => 2 | close => 3 | fstat => 5
  | lseek => 8 | mmap => 9 | mprotect => 10 | munmap => 11 | brk => 12
  | pread64 => 17 | writev => 20 | access => 21
  | dup => 32 | dup2 => 33
  | socket => 41 | connect => 42 | accept => 43 | sendto => 44
  | recvfrom => 45 | bind => 49 | listen => 50 | getsockname => 51
  | getpeername => 52 | setsockopt => 54 | getsockopt => 55
  | clone => 56 | fork => 57 | vfork => 58 | execve => 59 | kill => 62
  | uname => 63 | fcntl => 72 | readlink => 89 | sysinfo => 99
  | arch_prctl => 158 | futex => 202 | set_tid_address => 218
  | clock_gettime => 228 | exit_group => 231 | openat => 257
  | newfstatat => 262 | faccessat => 269 | set_robust_list => 273
  | dup3 => 292 | prlimit64 => 302 | getrandom => 318 | rseq => 334
  end.

(** Access modes of [<fcntl.h>]. *)
Definition O_RDONLY : Z := 0.
Definition O_WRONLY : Z := 1.
Definition O_RDWR : Z := 2.

(** [EINVAL], returned (negated) for a context that is not live. *)
Definition EINVAL : Z := 22.

(** One rule of a filter: what [seccomp_rule_add] is given. *)
Record scmp_rule : Type := {
  rule_action : scmp_action;
  rule_syscall : Z;
  rule_cmps : list scmp_arg_cmp
}.

(** A filter: the default action fixed by [seccomp_init] and the rules added
    since, oldest first. *)
Record scmp_filter : Type := {
  def_action : scmp_action;
  rules : list scmp_rule
}.

(** [struct seccomp_data]: the system call the kernel evaluates a filter on. *)
Record seccomp_data : Type := {
  nr : Z;
  args : list Z
}.

Definition syscall_arg (d : seccomp_data) (i : nat) : Z := default 0 (args d !! i).

(** Does the comparison hold for the call? Masked equality compares the
    masked argument with the masked value. *)
Definition arg_cmp_holds (d : seccomp_data) (c : scmp_arg_cmp) : bool :=
  let a := syscall_arg d (arg c) in
  match op c with
  | SCMP_CMP_NE => negb (a =? datum_a c)
  | SCMP_CMP_LT => a <? datum_a c
  | SCMP_CMP_LE => a <=? datum_a c
  | SCMP_CMP_EQ => a =? datum_a c
  | SCMP_CMP_GE => a >=? datum_a c
  | SCMP_CMP_GT => a >? datum_a c
  | SCMP_CMP_MASKED_EQ => Z.land a (datum_a c) =? Z.land (datum_b c) (datum_a c)
  end.

(** A rule matches a call of its system call whose arguments satisfy all of
    its comparisons. *)
Definition rule_matches (d : seccomp_data) (r : scmp_rule) : bool :=
  (rule_syscall r =? nr d) && forallb (arg_cmp_holds d) (rule_cmps r).

(** The action a loaded filter takes on a call: that of a matching rule, the
    default action when no rule matches. (Every filter built in [rule.h]
    gives all its rules the same action, so the choice among several matching
    rules does not matter there.) *)
Definition verdict (f : scmp_filter) (d : seccomp_data) : scmp_action :=
  match find (rule_matches d) (rules f) with
  | Some r => rule_action r
  | None => def_action f
  end.

(** ** The process state and the library calls *)

(** A filter context handle; [None] is the null pointer. *)
Definition scmp_filter_ctx : Type := option nat.

Definition is_null (ctx : scmp_filter_ctx) : bool :=
  match ctx with None => true | Some _ => false end.

(** The library calls a builder makes, with what each returned. *)
Inductive lib_call : Type :=
| call_init (d : scmp_action) (res : scmp_filter_ctx)
| call_rule_add (ctx : scmp_filter_ctx) (r : scmp_rule) (rc : Z)
| call_load (ctx : scmp_filter_ctx) (rc : Z)
| call_release (ctx : scmp_filter_ctx).

(** The state of the calling process: the filter contexts libseccomp has
    allocated (slot [h] is that of handle [h]; [None] once released), the
    filters loaded into the kernel, oldest first, and the library calls made
    so far. *)
Record process : Type := {
  contexts : list (option scmp_filter);
  kernel_filters : list scmp_filter;
  trace : list lib_call
}.

(** The process before any library call. *)
Definition fresh_process : process :=
  {| contexts := []; kernel_filters := []; trace := [] |}.

(** The live filter behind a handle. *)
Definition live_filter (w : process) (ctx : scmp_filter_ctx) : option scmp_filter :=
  match ctx with
  | Some h => match contexts w !! h with Some (Some f) => Some f | _ => None end
  | None => None
  end.

(** The handles of the contexts that are allocated and not released. *)
Fixpoint live_from (h : nat) (cs : list (option scmp_filter)) : list nat :=
  match cs with
  | [] => []
  | Some _ :: cs' => h :: live_from (S h) cs'
  | None :: cs' => live_from (S h) cs'
  end.

Definition live_contexts (w : process) : list nat := live_from 0 (contexts w).

(** What the library and the kernel answer: whether a context can be
    allocated, and the return codes of a rule addition and of a load. Each may
    depend on all calls made before. *)
Record libseccomp : Type := {
  init_ok : list lib_call -> scmp_action -> bool;
  rule_add_rc : list lib_call -> scmp_rule -> Z;
  load_rc : list lib_call -> scmp_filter -> Z
}.

(** A library and kernel where every call succeeds. *)
Definition lib_ok : libseccomp :=
  {| init_ok := fun _ _ => true;
     rule_add_rc := fun _ _ => 0;
     load_rc := fun _ _ => 0 |}.

(** ** The monad of a C function body *)

(** A statement either falls through to the next one with a value, or
    executes [return code]. *)
Inductive outcome (A : Type) : Type :=
| Next (a : A)
| Returned (code : Z).
Arguments Next {A} a.
Arguments Returned {A} code.

Definition M (A : Type) : Type := process -> outcome A * process.

Definition ret {A} (a : A) : M A := fun w => (Next a, w).

Definition Return {A} (code : Z) : M A := fun w => (Returned code, w).

Definition bindM {A B} (m : M A) (k : A -> M B) : M B :=
  fun w =>
    match m w with
    | (Next a, w') => k a w'
    | (Returned c, w') => (Returned c, w')
    end.

Declare Scope c_scope.
Delimit Scope c_scope with C.
Notation "x <- m ;; k" := (bindM m (fun x => k))
  (at level 100, m at next level, k at level 200, right associativity) : c_scope.
Notation "m ;; k" := (bindM m (fun _ => k))
  (at level 100, k at level 200, right associativity) : c_scope.
Local Open Scope c_scope.

(** [if (b) stmt]. *)
Definition when (b : bool) (m : M unit) : M unit := if b then m else ret tt.

(** [for (i = 0; i < length; i++) body(xs[i])]. *)
Fixpoint for_each {A} (xs : list A) (body : A -> M unit) : M unit :=
  match xs with
  | [] => ret tt
  | x :: xs' => body x ;; for_each xs' body
  end.

(** [rc != 0]. *)
Definition nonzero (rc : Z) : bool := negb (rc =? 0).

(** Calling a function whose body is [body]: the value of the executed
    [return]. A body of type [M Empty_set] cannot fall off its end. *)
Definition call (body : M Empty_set) (w : process) : Z * process :=
  match body w with
  | (Returned c, w') => (c, w')
  | (Next e, _) => match e with end
  end.

Definition log (e : lib_call) (w : process) : process :=
  {| contexts := contexts w;
     kernel_filters := kernel_filters w;
     trace := trace w ++ [e] |}.

Definition set_contexts (cs : list (option scmp_filter)) (w : process) : process :=
  {| contexts := cs;
     kernel_filters := kernel_filters w;
     trace := trace w |}.

Definition push_filter (f : scmp_filter) (w : process) : process :=
  {| contexts := contexts w;
     kernel_filters := kernel_filters w ++ [f];
     trace := trace w |}.

Definition add_rule (r : scmp_rule) (f : scmp_filter) : scmp_filter :=
  {| def_action := def_action f; rules := rules f ++ [r] |}.

Section Library.

Variable lib : libseccomp.

(** [seccomp_init]: a new context with the given default action and no
    rule, or the null pointer. *)
Definition seccomp_init (d : scmp_action) : M scmp_filter_ctx :=
  fun w =>
    if init_ok lib (trace w) d then
      let h := length (contexts w) in
      let f := {| def_action := d; rules := [] |} in
      (Next (Some h),
       log (call_init d (Some h)) (set_contexts (contexts w ++ [Some f]) w))
    else
      (Next None, log (call_init d None) w).

(** [seccomp_rule_add]: on return code 0 the rule is appended to the
    context's filter; on any other the filter is unchanged. *)
Definition seccomp_rule_add (ctx : scmp_filter_ctx) (a : scmp_action)
    (syscall : Z) (cmps : list scmp_arg_cmp) : M Z :=
  fun w =>
    let r := {| rule_action := a; rule_syscall := syscall; rule_cmps := cmps |} in
    match ctx, live_filter w ctx with
    | Some h, Some f =>
        let rc := rule_add_rc lib (trace w) r in
        let w' := if rc =? 0
                  then set_contexts (<[h := Some (add_rule r f)]> (contexts w)) w
                  else w in
        (Next rc, log (call_rule_add ctx r rc) w')
    | _, _ => (Next (- EINVAL), log (call_rule_add ctx r (- EINVAL)) w)
    end.

(** [seccomp_load]: on return code 0 the context's filter is in force in
    the kernel. *)
Definition seccomp_load (ctx : scmp_filter_ctx) : M Z :=
  fun w =>
    match live_filter w ctx with
    | Some f =>
        let rc := load_rc lib (trace w) f in
        let w' := if rc =? 0 then push_filter f w else w in
        (Next rc, log (call_load ctx rc) w')
    | None => (Next (- EINVAL), log (call_load ctx (- EINVAL)) w)
    end.

(** [seccomp_release]: frees the context. *)
Definition seccomp_release (ctx : scmp_filter_ctx) : M unit :=
  fun w =>
    match ctx, live_filter w ctx with
    | Some h, Some _ =>
        (Next tt, log (call_release ctx) (set_contexts (<[h := None]> (contexts w)) w))
    | _, _ => (Next tt, log (call_release ctx) w)
    end.

End Library.

End Seccomp.

(** ** [rule.h] *)

Import Seccomp.
Local Open Scope c_scope.

Definition LOAD_SECCOMP_FAILED : Z := 1.

Section Builders.

Variable lib : libseccomp.

(** [int c_cpp_rules (char *target, bool allow_write_file, bool allow_network)];
    [target] is the pointer value. *)
Definition c_cpp_rules (target : Z) (allow_write_file allow_network : bool)
    : M Empty_set :=
  ctx <- seccomp_init lib SCMP_ACT_KILL ;;
  when (is_null ctx) (Return LOAD_SECCOMP_FAILED) ;;
  (* for execve *)
  rc <- seccomp_rule_add lib ctx SCMP_ACT_ALLOW (SCMP_SYS execve)
          [SCMP_A0 SCMP_CMP_EQ (scmp_datum_t target)] ;;
  when (nonzero rc) (Return LOAD_SECCOMP_FAILED) ;;
  let syscalls_whitelist :=
    [SCMP_SYS read; SCMP_SYS fstat;
     SCMP_SYS mmap; SCMP_SYS mprotect;
     SCMP_SYS munmap; SCMP_SYS uname;
     SCMP_SYS arch_prctl; SCMP_SYS brk;
     SCMP_SYS access; SCMP_SYS exit_group;
     SCMP_SYS close; SCMP_SYS readlink;
     SCMP_SYS sysinfo; SCMP_SYS write;
     SCMP_SYS writev; SCMP_SYS lseek;
     SCMP_SYS clock_gettime; SCMP_SYS fcntl;
     SCMP_SYS pread64; SCMP_SYS faccessat;
     SCMP_SYS newfstatat; SCMP_SYS set_tid_address;
     SCMP_SYS set_robust_list; SCMP_SYS rseq;
     SCMP_SYS prlimit64;
     SCMP_SYS futex;
     SCMP_SYS getrandom] in
  (* add rules *)
  for_each syscalls_whitelist (fun s =>
    rc <- seccomp_rule_add lib ctx SCMP_ACT_ALLOW s [] ;;
    when (nonzero rc) (Return LOAD_SECCOMP_FAILED)) ;;
  when allow_network (
    let network_syscalls :=
      [SCMP_SYS socket; SCMP_SYS connect;
       SCMP_SYS bind; SCMP_SYS listen;
       SCMP_SYS accept; SCMP_SYS sendto;
       SCMP_SYS recvfrom; SCMP_SYS setsockopt;
       SCMP_SYS getsockopt; SCMP_SYS getpeername;
       SCMP_SYS getsockname] in
    for_each network_syscalls (fun s =>
      rc <- seccomp_rule_add lib ctx SCMP_ACT_ALLOW s [] ;;
      when (nonzero rc) (Return LOAD_SECCOMP_FAILED))) ;;
  (* file write permission *)
  (if negb allow_write_file then
     (* do not allow "w" and "rw" *)
     rc <- seccomp_rule_add lib ctx SCMP_ACT_ALLOW (SCMP_SYS open)
             [SCMP_CMP 1 SCMP_CMP_MASKED_EQ (Z.lor O_WRONLY O_RDWR) 0] ;;
     when (nonzero rc) (Return LOAD_SECCOMP_FAILED) ;;
     rc <- seccomp_rule_add lib ctx SCMP_ACT_ALLOW (SCMP_SYS openat)
             [SCMP_CMP 2 SCMP_CMP_MASKED_EQ (Z.lor O_WRONLY O_RDWR) 0] ;;
     when (nonzero rc) (Return LOAD_SECCOMP_FAILED)
   else
     (* allow "w" and "rw" *)
     rc <- seccomp_rule_add lib ctx SCMP_ACT_ALLOW (SCMP_SYS open) [] ;;
     when (nonzero rc) (Return LOAD_SECCOMP_FAILED) ;;
     rc <- seccomp_rule_add lib ctx SCMP_ACT_ALLOW (SCMP_SYS dup) [] ;;
     when (nonzero rc) (Return LOAD_SECCOMP_FAILED) ;;
     rc <- seccomp_rule_add lib ctx SCMP_ACT_ALLOW (SCMP_SYS dup2) [] ;;
     when (nonzero rc) (Return LOAD_SECCOMP_FAILED) ;;
     rc <- seccomp_rule_add lib ctx SCMP_ACT_ALLOW (SCMP_SYS dup3) [] ;;
     when (nonzero rc) (Return LOAD_SECCOMP_FAILED)) ;;
  rc <- seccomp_load lib ctx ;;
  when (nonzero rc) (Return LOAD_SECCOMP_FAILED) ;;
  seccomp_release ctx ;;
  Return 0.

(** [int python3_rules (char *target)]. *)
Definition python3_rules (target : Z) : M Empty_set :=
  Return 0.

(** [int general_rules (char *target, bool allow_network)]. *)
Definition general_rules (target : Z) (allow_network : bool) : M Empty_set :=
  ctx <- seccomp_init lib SCMP_ACT_ALLOW ;;
  when (is_null ctx) (Return LOAD_SECCOMP_FAILED) ;;
  (* for execve *)
  rc <- seccomp_rule_add lib ctx SCMP_ACT_KILL (SCMP_SYS execve)
          [SCMP_A0 SCMP_CMP_NE (scmp_datum_t target)] ;;
  when (nonzero rc) (Return LOAD_SECCOMP_FAILED) ;;
  let syscalls_blacklist :=
    [SCMP_SYS clone;
     SCMP_SYS fork; SCMP_SYS vfork;
     SCMP_SYS kill] in
  for_each syscalls_blacklist (fun s =>
    rc <- seccomp_rule_add lib ctx SCMP_ACT_KILL s [] ;;
    when (nonzero rc) (Return LOAD_SECCOMP_FAILED)) ;;
  (* do not allow "w" and "rw" using open *)
  rc <- seccomp_rule_add lib ctx SCMP_ACT_KILL (SCMP_SYS open)
          [SCMP_CMP 1 SCMP_CMP_MASKED_EQ O_WRONLY O_WRONLY] ;;
  when (nonzero rc) (Return LOAD_SECCOMP_FAILED) ;;
  rc <- seccomp_rule_add lib ctx SCMP_ACT_KILL (SCMP_SYS open)
          [SCMP_CMP 1 SCMP_CMP_MASKED_EQ O_RDWR O_RDWR] ;;
  when (nonzero rc) (Return LOAD_SECCOMP_FAILED) ;;
  (* do not allow "w" and "rw" using openat *)
  rc <- seccomp_rule_add lib ctx SCMP_ACT_KILL (SCMP_SYS openat)
          [SCMP_CMP 2 SCMP_CMP_MASKED_EQ O_WRONLY O_WRONLY] ;;
  when (nonzero rc) (Return LOAD_SECCOMP_FAILED) ;;
  rc <- seccomp_rule_add lib ctx SCMP_ACT_KILL (SCMP_SYS openat)
          [SCMP_CMP 2 SCMP_CMP_MASKED_EQ O_RDWR O_RDWR] ;;
  when (nonzero rc) (Return LOAD_SECCOMP_FAILED) ;;
  when (negb allow_network) (ret tt) ;;
  rc <- seccomp_load lib ctx ;;
  when (nonzero rc) (Return LOAD_SECCOMP_FAILED) ;;
  seccomp_release ctx ;;
  Return 0.

End Builders.

(** A library whose kernel refuses the load. *)
Definition lib_load_fails : libseccomp :=
  {| init_ok := fun _ _ => true;
     rule_add_rc := fun _ _ => 0;
     load_rc := fun _ _ => - EINVAL |}.

(** A library that refuses the very first rule. *)
Definition lib_add_fails : libseccomp :=
  {| init_ok := fun _ _ => true;
     rule_add_rc := fun _ _ => - EINVAL;
     load_rc := fun _ _ => 0 |}.

(** A library that cannot allocate a context. *)
Definition lib_init_fails : libseccomp :=
  {| init_ok := fun _ _ => false;
     rule_add_rc := fun _ _ => 0;
     load_rc := fun _ _ => 0 |}.

(** A library that accepts rules while fewer than [n] calls have been made
    and refuses them afterwards. *)
Definition lib_refuses_after (n : nat) : libseccomp :=
  {| init_ok := fun _ _ => true;
     rule_add_rc := fun tr _ => if (length tr <=? n)%nat then 0 else - EINVAL;
     load_rc := fun _ _ => 0 |}.

(** ** The rules each builder hands to [seccomp_rule_add], in program order *)

Definition rule (a : scmp_action) (syscall : Z) (cmps : list scmp_arg_cmp) : scmp_rule :=
  {| rule_action := a; rule_syscall := syscall; rule_cmps := cmps |}.

Definition plain (a : scmp_action) (s : Z) : scmp_rule := rule a s [].

Definition c_cpp_plan (target : Z) (allow_write_file allow_network : bool)
    : list scmp_rule :=
  [rule SCMP_ACT_ALLOW (SCMP_SYS execve) [SCMP_A0 SCMP_CMP_EQ (scmp_datum_t target)]]
  ++ map (plain SCMP_ACT_ALLOW)
       [SCMP_SYS read; SCMP_SYS fstat; SCMP_SYS mmap; SCMP_SYS mprotect;
        SCMP_SYS munmap; SCMP_SYS uname; SCMP_SYS arch_prctl; SCMP_SYS brk;
        SCMP_SYS access; SCMP_SYS exit_group; SCMP_SYS close; SCMP_SYS readlink;
        SCMP_SYS sysinfo; SCMP_SYS write; SCMP_SYS writev; SCMP_SYS lseek;
        SCMP_SYS clock_gettime; SCMP_SYS fcntl; SCMP_SYS pread64;
        SCMP_SYS faccessat; SCMP_SYS newfstatat; SCMP_SYS set_tid_address;
        SCMP_SYS set_robust_list; SCMP_SYS rseq; SCMP_SYS prlimit64;
        SCMP_SYS futex; SCMP_SYS getrandom]
  ++ (if allow_network
      then map (plain SCMP_ACT_ALLOW)
             [SCMP_SYS socket; SCMP_SYS connect; SCMP_SYS bind; SCMP_SYS listen;
              SCMP_SYS accept; SCMP_SYS sendto; SCMP_SYS recvfrom;
              SCMP_SYS setsockopt; SCMP_SYS getsockopt; SCMP_SYS getpeername;
              SCMP_SYS getsockname]
      else [])
  ++ (if negb allow_write_file
      then [rule SCMP_ACT_ALLOW (SCMP_SYS open)
              [SCMP_CMP 1 SCMP_CMP_MASKED_EQ (Z.lor O_WRONLY O_RDWR) 0];
            rule SCMP_ACT_ALLOW (SCMP_SYS openat)
              [SCMP_CMP 2 SCMP_CMP_MASKED_EQ (Z.lor O_WRONLY O_RDWR) 0]]
      else map (plain SCMP_ACT_ALLOW)
             [SCMP_SYS open; SCMP_SYS dup; SCMP_SYS dup2; SCMP_SYS dup3]).

Definition general_plan (target : Z) : list scmp_rule :=
  [rule SCMP_ACT_KILL (SCMP_SYS execve) [SCMP_A0 SCMP_CMP_NE (scmp_datum_t target)]]
  ++ map (plain SCMP_ACT_KILL)
       [SCMP_SYS clone; SCMP_SYS fork; SCMP_SYS vfork; SCMP_SYS kill]
  ++ [rule SCMP_ACT_KILL (SCMP_SYS open) [SCMP_CMP 1 SCMP_CMP_MASKED_EQ O_WRONLY O_WRONLY];
      rule SCMP_ACT_KILL (SCMP_SYS open) [SCMP_CMP 1 SCMP_CMP_MASKED_EQ O_RDWR O_RDWR];
      rule SCMP_ACT_KILL (SCMP_SYS openat) [SCMP_CMP 2 SCMP_CMP_MASKED_EQ O_WRONLY O_WRONLY];
      rule SCMP_ACT_KILL (SCMP_SYS openat) [SCMP_CMP 2 SCMP_CMP_MASKED_EQ O_RDWR O_RDWR]].

(** The filters the builders hand to the kernel. *)
Definition c_cpp_filter (target : Z) (allow_write_file allow_network : bool) : scmp_filter :=
  {| def_action := SCMP_ACT_KILL;
     rules := c_cpp_plan target allow_write_file allow_network |}.

Definition general_filter (target : Z) : scmp_filter :=
  {| def_action := SCMP_ACT_ALLOW; rules := general_plan target |}.

(** ** Specifications of runs *)

(** Partial correctness of a statement, with one postcondition for falling
    through and one for an executed [return]. *)
Definition triple {A} (P : process -> Prop) (m : M A)
    (Q : A -> process -> Prop) (E : Z -> process -> Prop) : Prop :=
  forall w, P w ->
    match m w with
    | (Next a, w') => Q a w'
    | (Returned c, w') => E c w'
    end.

Definition at_state (s : process) : process -> Prop := fun w => w = s.

(** The handle [seccomp_init] hands out when called in state [w0]. *)
Definition new_handle (w0 : process) : scmp_filter_ctx := Some (length (contexts w0)).

(** The state of a builder that started in [w0], got its context and has
    added the rules [done] to it. *)
Definition building (w0 : process) (d : scmp_action) (done : list scmp_rule) : process :=
  {| contexts := contexts w0 ++ [Some {| def_action := d; rules := done |}];
     kernel_filters := kernel_filters w0;
     trace := trace w0
              ++ call_init d (new_handle w0)
                 :: map (fun r => call_rule_add (new_handle w0) r 0) done |}.

(** The state after a complete run: the filter is loaded and the context
    released. *)
Definition installed (w0 : process) (d : scmp_action) (plan : list scmp_rule) : process :=
  log (call_release (new_handle w0))
    (log (call_load (new_handle w0) 0)
       (push_filter {| def_action := d; rules := plan |}
          (set_contexts (contexts w0 ++ [None]) (building w0 d plan)))).

(** The states a builder that started in [w0] can give up in: the library
    did not allocate a context, refused a rule after accepting the rules
    [done], or refused the load. *)
Inductive aborted (lib : libseccomp) (w0 : process) (d : scmp_action) : process -> Prop :=
| aborted_init :
    init_ok lib (trace w0) d = false ->
    aborted lib w0 d (log (call_init d None) w0)
| aborted_add done r :
    rule_add_rc lib (trace (building w0 d done)) r <> 0 ->
    aborted lib w0 d
      (log (call_rule_add (new_handle w0) r
              (rule_add_rc lib (trace (building w0 d done)) r))
         (building w0 d done))
| aborted_load done :
    load_rc lib (trace (building w0 d done)) {| def_action := d; rules := done |} <> 0 ->
    aborted lib w0 d
      (log (call_load (new_handle w0)
              (load_rc lib (trace (building w0 d done))
                 {| def_action := d; rules := done |}))
         (building w0 d done)).

(** What a call of a builder returns and where it leaves the process. *)
Definition exits (lib : libseccomp) (w0 : process) (d : scmp_action)
    (plan : list scmp_rule) (c : Z) (w : process) : Prop :=
  (c = 0 /\ w = installed w0 d plan)
  \/ (c = LOAD_SECCOMP_FAILED /\ aborted lib w0 d w).

(** The call of [body] in state [w] returns 0 and has loaded the filter [f]. *)
Definition loads (body : M Empty_set) (w : process) (f : scmp_filter) : Prop :=
  fst (call body w) = 0
  /\ kernel_filters (snd (call body w)) = kernel_filters w ++ [f].

(** A library call that reported failure. *)
Definition failed_call (e : lib_call) : Prop :=
  match e with
  | call_init _ res => res = None
  | call_rule_add _ _ rc => rc <> 0
  | call_load _ rc => rc <> 0
  | call_release _ => False
  end.

Definition is_release (e : lib_call) : Prop :=
  match e with call_release _ => True | _ => False end.

(** A builder that fails closed: it returns 0 or [LOAD_SECCOMP_FAILED], the
    latter exactly when one of its library calls reported failure; a refused
    rule addition is the last library call it makes; and after a failed call
    the kernel has no new filter. [evs] are the library calls of this run. *)
Definition single_failure_code (body : M Empty_set) (w : process) : Prop :=
  let c := fst (call body w) in
  let w' := snd (call body w) in
  (c = 0 \/ c = LOAD_SECCOMP_FAILED)
  /\ exists evs,
       trace w' = trace w ++ evs
       /\ (c = LOAD_SECCOMP_FAILED <-> Exists failed_call evs)
       /\ (forall pre ctx r rc post,
             evs = pre ++ call_rule_add ctx r rc :: post -> rc <> 0 -> post = [])
       /\ (Exists failed_call evs -> kernel_filters w' = kernel_filters w).

(** The call of system call [s] with arguments [args]. *)
Definition syscall (s : sysname) (args : list Z) : seccomp_data :=
  {| nr := SCMP_SYS s; args := args |}.

(** Sample inputs: a target address and some file flags. *)
Definition example_target : Z := 4096.
Definition example_path : Z := 8192.
Definition O_CREAT : Z := 64.

Arguments syscall_arg : simpl never.
Arguments scmp_datum_t : simpl never.

(** The system calls of [syscalls_whitelist] and [network_syscalls] in
    [c_cpp_rules] and of [syscalls_blacklist] in [general_rules], by name. *)
Definition whitelist_names : list sysname :=
  [read; fstat; mmap; mprotect; munmap; uname; arch_prctl; brk; access;
   exit_group; close; readlink; sysinfo; write; writev; lseek; clock_gettime;
   fcntl; pread64; faccessat; newfstatat; set_tid_address; set_robust_list;
   rseq; prlimit64; futex; getrandom].

Definition network_names : list sysname :=
  [socket; connect; bind; listen; accept; sendto; recvfrom; setsockopt;
   getsockopt; getpeername; getsockname].

Definition blacklist_names : list sysname := [clone; fork; vfork; kill].

(** The system calls the file-permission branch of [c_cpp_rules] adds rules
    for, in either of its arms. *)
Definition file_names : list sysname := [open; openat; dup; dup2; dup3].

(** The system calls [c_cpp_rules] adds a rule for, given its flags. *)
Definition c_cpp_names (allow_write_file allow_network : bool) : list sysname :=
  [execve] ++ whitelist_names
  ++ (if allow_network then network_names else [])
  ++ (if negb allow_write_file then [open; openat] else [open; dup; dup2; dup3]).


(** A library and kernel that accept every call. *)
Definition accepts_all (lib : libseccomp) : Prop :=
  (forall tr d, init_ok lib tr d = true)
  /\ (forall tr r, rule_add_rc lib tr r = 0)
  /\ (forall tr f, load_rc lib tr f = 0).

(** The library calls of a complete run started in [w0]. *)
Definition complete_run (w0 : process) (d : scmp_action) (plan : list scmp_rule)
    : list lib_call :=
  call_init d (new_handle w0)
  :: map (fun r => call_rule_add (new_handle w0) r 0) plan
  ++ [call_load (new_handle w0) 0; call_release (new_handle w0)].

(** * Proofs *)

(** ** The monad *)

Lemma bindM_assoc {A B C} (m : M A) (f : A -> M B) (g : B -> M C) w :
  bindM (bindM m f) g w = bindM m (fun x => bindM (f x) g) w.
Proof.
  unfold bindM. destruct (m w) as [[a|c] w']; reflexivity.
Qed.

Lemma triple_ret {A} (a : A) s E :
  triple (at_state s) (ret a) (fun _ => at_state s) E.
Proof. intros w Hw. exact Hw. Qed.

Lemma triple_bind {A B} P (m : M A) (k : A -> M B) Q' Q E :
  triple P m Q' E ->
  (forall a, triple (Q' a) (k a) Q E) ->
  triple P (bindM m k) Q E.
Proof.
  intros Hm Hk w Hw. unfold bindM.
  specialize (Hm w Hw). destruct (m w) as [[a|c] w'].
  - apply Hk, Hm.
  - exact Hm.
Qed.

Lemma triple_assoc {A B C} P (m : M A) (f : A -> M B) (g : B -> M C) Q E :
  triple P (bindM (bindM m f) g) Q E ->
  triple P (bindM m (fun x => bindM (f x) g)) Q E.
Proof.
  intros H w Hw. rewrite <- bindM_assoc. apply H, Hw.
Qed.

(** A loop whose body extends the invariant by one element. *)
Lemma triple_for_each {A} (I : list A -> process -> Prop) (body : A -> M unit) E xs :
  (forall done x, triple (I done) (body x) (fun _ => I (done ++ [x])) E) ->
  forall done, triple (I done) (for_each xs body) (fun _ => I (done ++ xs)) E.
Proof.
  intros Hbody. induction xs as [|x xs IH]; intros done.
  - rewrite app_nil_r. intros w Hw. exact Hw.
  - cbn [for_each]. eapply triple_bind; [apply Hbody|].
    intros ?. replace (done ++ x :: xs) with ((done ++ [x]) ++ xs).
    + apply IH.
    + rewrite <- app_assoc. reflexivity.
Qed.

(** ** The library calls on a context under construction *)

Lemma lookup_new_slot {A} (l : list A) (x : A) : (l ++ [x]) !! length l = Some x.
Proof. apply list_lookup_middle. reflexivity. Qed.

Lemma insert_new_slot {A} (l : list A) (x y : A) :
  <[length l := y]> (l ++ [x]) = l ++ [y].
Proof.
  rewrite insert_app_r_alt by lia. rewrite Nat.sub_diag. reflexivity.
Qed.

Lemma live_filter_building w0 d done :
  live_filter (building w0 d done) (new_handle w0)
  = Some {| def_action := d; rules := done |}.
Proof.
  unfold live_filter, new_handle, building; cbn [contexts].
  rewrite lookup_new_slot. reflexivity.
Qed.

Lemma building_snoc w0 d done r :
  log (call_rule_add (new_handle w0) r 0)
    (set_contexts
       (<[length (contexts w0) := Some (add_rule r {| def_action := d; rules := done |})]>
          (contexts (building w0 d done)))
       (building w0 d done))
  = building w0 d (done ++ [r]).
Proof.
  unfold log, set_contexts, building, add_rule; cbn.
  rewrite insert_new_slot, map_app, <- app_assoc. reflexivity.
Qed.

Section Steps.

Variable lib : libseccomp.
Variable w0 : process.
Variable d : scmp_action.
Variable plan : list scmp_rule.

(** [seccomp_init] followed by the null check: the rest of the body runs
    with the new handle, on the empty context. *)
Lemma init_checked {A} (k : scmp_filter_ctx -> M A) Q :
  triple (at_state (building w0 d [])) (k (new_handle w0)) Q (exits lib w0 d plan) ->
  triple (at_state w0)
    (ctx <- seccomp_init lib d ;; when (is_null ctx) (Return LOAD_SECCOMP_FAILED) ;; k ctx)
    Q (exits lib w0 d plan).
Proof.
  intros Hk w ->. unfold bindM, seccomp_init.
  destruct (init_ok lib (trace w0) d) eqn:Hinit; cbn [is_null when].
  - apply (Hk _ eq_refl).
  - right. split; [reflexivity | constructor; exact Hinit].
Qed.

(** [seccomp_rule_add] followed by the check of its return code. *)
Lemma guarded_add done a s cmps :
  triple (at_state (building w0 d done))
    (rc <- seccomp_rule_add lib (new_handle w0) a s cmps ;;
     when (nonzero rc) (Return LOAD_SECCOMP_FAILED))
    (fun _ => at_state (building w0 d (done ++ [rule a s cmps])))
    (exits lib w0 d plan).
Proof.
  intros w ->. unfold bindM, seccomp_rule_add.
  change (new_handle w0) with (Some (length (contexts w0))). cbv beta iota.
  fold (new_handle w0). rewrite live_filter_building. fold (rule a s cmps).
  set (rc := rule_add_rc lib _ _). unfold nonzero.
  destruct (Z.eqb_spec rc 0) as [Hrc|Hrc]; cbn [negb when].
  - rewrite Hrc. unfold ret, at_state. apply building_snoc.
  - right. split; [reflexivity|]. apply (aborted_add lib w0 d done _ Hrc).
Qed.

(** A loop of guarded additions of unconditional rules. *)
Lemma guarded_adds a ss done :
  triple (at_state (building w0 d done))
    (for_each ss (fun s =>
       rc <- seccomp_rule_add lib (new_handle w0) a s [] ;;
       when (nonzero rc) (Return LOAD_SECCOMP_FAILED)))
    (fun _ => at_state (building w0 d (done ++ map (plain a) ss)))
    (exits lib w0 d plan).
Proof.
  set (I := fun xs => at_state (building w0 d (done ++ map (plain a) xs))).
  assert (Hbody : forall xs x,
    triple (I xs)
      (rc <- seccomp_rule_add lib (new_handle w0) a x [] ;;
       when (nonzero rc) (Return LOAD_SECCOMP_FAILED))
      (fun _ => I (xs ++ [x])) (exits lib w0 d plan)).
  { intros xs x. unfold I. rewrite map_app, app_assoc. apply guarded_add. }
  pose proof (triple_for_each I _ _ ss Hbody []) as H.
  unfold I in H. cbn [map app] in H. rewrite app_nil_r in H. exact H.
Qed.

(** The load, its check, and the release. *)
Lemma load_and_release :
  triple (at_state (building w0 d plan))
    (rc <- seccomp_load lib (new_handle w0) ;;
     when (nonzero rc) (Return LOAD_SECCOMP_FAILED) ;;
     seccomp_release (new_handle w0) ;;
     Return 0)
    (fun (_ : Empty_set) _ => False)
    (exits lib w0 d plan).
Proof.
  intros w ->. unfold bindM, seccomp_load.
  rewrite live_filter_building.
  set (rc := load_rc lib _ _). unfold nonzero.
  destruct (Z.eqb_spec rc 0) as [Hrc|Hrc]; cbn [negb when].
  - rewrite Hrc. unfold ret, seccomp_release, Return, live_filter, new_handle.
    cbn [log push_filter contexts set_contexts building].
    rewrite lookup_new_slot, insert_new_slot.
    left. split; reflexivity.
  - right. split; [reflexivity|]. apply (aborted_load lib w0 d plan Hrc).
Qed.

End Steps.

(** ** The builders *)

Ltac add_step :=
  first
    [ apply guarded_add
    | apply guarded_adds
    | apply triple_ret
    | apply load_and_release
    | apply triple_assoc; eapply triple_bind; [apply guarded_add | intros ?]
    | eapply triple_bind; [apply guarded_adds | intros ?]
    | eapply triple_bind; [apply triple_ret | intros ?] ].

(** Every call of [c_cpp_rules] either installs the filter made of its plan
    and returns 0, or gives up with [LOAD_SECCOMP_FAILED]. *)
Lemma c_cpp_rules_run lib target allow_write_file allow_network w0 :
  triple (at_state w0) (c_cpp_rules lib target allow_write_file allow_network)
    (fun _ _ => False)
    (exits lib w0 SCMP_ACT_KILL (c_cpp_plan target allow_write_file allow_network)).
Proof.
  unfold c_cpp_rules. apply init_checked. cbv zeta.
  destruct allow_write_file, allow_network; cbn [negb when];
    do 3 add_step;
    (eapply triple_bind; [repeat add_step | intros ?; apply load_and_release]).
Qed.

(** The same for [general_rules]. *)
Lemma general_rules_run lib target allow_network w0 :
  triple (at_state w0) (general_rules lib target allow_network)
    (fun _ _ => False)
    (exits lib w0 SCMP_ACT_ALLOW (general_plan target)).
Proof.
  unfold general_rules. apply init_checked. cbv zeta.
  destruct allow_network; cbn [negb when]; do 7 add_step; apply load_and_release.
Qed.

Lemma triple_call body w0 E :
  triple (at_state w0) body (fun _ _ => False) E ->
  E (fst (call body w0)) (snd (call body w0)).
Proof.
  intros H. specialize (H w0 eq_refl). unfold call.
  destruct (body w0) as [[e|c] w']; [destruct H | exact H].
Qed.

Lemma loads_filter lib body w d plan f :
  exits lib w d plan (fst (call body w)) (snd (call body w)) ->
  loads body w f ->
  f = {| def_action := d; rules := plan |}.
Proof.
  intros [[_ Hw]|[Hc _]] [H0 Hk].
  - rewrite Hw in Hk. cbn in Hk. apply app_inj_tail in Hk as [_ Hf]. congruence.
  - rewrite H0 in Hc. discriminate.
Qed.

Lemma c_cpp_rules_exits lib target allow_write_file allow_network w :
  exits lib w SCMP_ACT_KILL (c_cpp_plan target allow_write_file allow_network)
    (fst (call (c_cpp_rules lib target allow_write_file allow_network) w))
    (snd (call (c_cpp_rules lib target allow_write_file allow_network) w)).
Proof. apply triple_call, c_cpp_rules_run. Qed.

Lemma general_rules_exits lib target allow_network w :
  exits lib w SCMP_ACT_ALLOW (general_plan target)
    (fst (call (general_rules lib target allow_network) w))
    (snd (call (general_rules lib target allow_network) w)).
Proof. apply triple_call, general_rules_run. Qed.

Lemma c_cpp_rules_loads lib target allow_write_file allow_network w f :
  loads (c_cpp_rules lib target allow_write_file allow_network) w f ->
  f = {| def_action := SCMP_ACT_KILL;
         rules := c_cpp_plan target allow_write_file allow_network |}.
Proof. apply (loads_filter lib), c_cpp_rules_exits. Qed.

Lemma general_rules_loads lib target allow_network w f :
  loads (general_rules lib target allow_network) w f ->
  f = {| def_action := SCMP_ACT_ALLOW; rules := general_plan target |}.
Proof. apply (loads_filter lib), general_rules_exits. Qed.

(** ** Matching one rule *)

Lemma rule_matches_plain n args a :
  rule_matches {| nr := n; args := args |} (plain a n) = true.
Proof. unfold rule_matches; cbn. rewrite Z.eqb_refl. reflexivity. Qed.

Lemma rule_matches_one n args a c :
  rule_matches {| nr := n; args := args |} (rule a n [c])
  = arg_cmp_holds {| nr := n; args := args |} c.
Proof.
  unfold rule_matches; cbn. rewrite Z.eqb_refl, andb_true_r. reflexivity.
Qed.

Lemma scmp_datum_t_pointer p : 0 <= p < 2 ^ 64 -> scmp_datum_t p = p.
Proof. intros Hp. unfold scmp_datum_t. apply Z.mod_small, Hp. Qed.

(** ** What the native-code filter decides *)

Lemma c_cpp_plan_execve target allow_write_file allow_network args :
  find (rule_matches (syscall execve args))
    (c_cpp_plan target allow_write_file allow_network)
  = if syscall_arg (syscall execve args) 0 =? scmp_datum_t target
    then Some (rule SCMP_ACT_ALLOW (SCMP_SYS execve)
                 [SCMP_A0 SCMP_CMP_EQ (scmp_datum_t target)])
    else None.
Proof.
  unfold syscall. destruct allow_write_file, allow_network; simpl;
    rewrite rule_matches_one; reflexivity.
Qed.

Lemma c_cpp_plan_open_read_only target allow_network args :
  find (rule_matches (syscall open args)) (c_cpp_plan target false allow_network)
  = if Z.land (syscall_arg (syscall open args) 1) (Z.lor O_WRONLY O_RDWR) =? 0
    then Some (rule SCMP_ACT_ALLOW (SCMP_SYS open)
                 [SCMP_CMP 1 SCMP_CMP_MASKED_EQ (Z.lor O_WRONLY O_RDWR) 0])
    else None.
Proof.
  unfold syscall. destruct allow_network; simpl; rewrite rule_matches_one; reflexivity.
Qed.

Lemma c_cpp_plan_openat_read_only target allow_network args :
  find (rule_matches (syscall openat args)) (c_cpp_plan target false allow_network)
  = if Z.land (syscall_arg (syscall openat args) 2) (Z.lor O_WRONLY O_RDWR) =? 0
    then Some (rule SCMP_ACT_ALLOW (SCMP_SYS openat)
                 [SCMP_CMP 2 SCMP_CMP_MASKED_EQ (Z.lor O_WRONLY O_RDWR) 0])
    else None.
Proof.
  unfold syscall. destruct allow_network; simpl; rewrite rule_matches_one; reflexivity.
Qed.

(** With write access the plan has no rule at all for [openat]. *)
Lemma c_cpp_plan_write_no_openat target allow_network :
  Forall (fun r => rule_syscall r <> SCMP_SYS openat)
    (c_cpp_plan target true allow_network).
Proof.
  destruct allow_network; cbn; repeat constructor; discriminate.
Qed.

Lemma c_cpp_plan_write_openat target allow_network args :
  find (rule_matches (syscall openat args))
    (c_cpp_plan target true allow_network) = None.
Proof. destruct allow_network; reflexivity. Qed.

Lemma c_cpp_plan_write_open target allow_network args :
  find (rule_matches (syscall open args))
    (c_cpp_plan target true allow_network)
  = Some (plain SCMP_ACT_ALLOW (SCMP_SYS open)).
Proof. destruct allow_network; reflexivity. Qed.

Lemma c_cpp_plan_no_dup target allow_network s :
  In s [dup; dup2; dup3] ->
  Forall (fun r => rule_syscall r <> SCMP_SYS s)
    (c_cpp_plan target false allow_network).
Proof.
  intros Hs. cbn in Hs.
  destruct Hs as [<-|[<-|[<-|[]]]]; destruct allow_network; cbn;
    repeat constructor; discriminate.
Qed.

Lemma c_cpp_plan_dup target allow_write_file allow_network s args :
  In s [dup; dup2; dup3] ->
  find (rule_matches (syscall s args))
    (c_cpp_plan target allow_write_file allow_network)
  = if allow_write_file then Some (plain SCMP_ACT_ALLOW (SCMP_SYS s)) else None.
Proof.
  intros Hs. cbn in Hs.
  destruct Hs as [<-|[<-|[<-|[]]]]; destruct allow_write_file, allow_network;
    reflexivity.
Qed.

(** ** What the fallback filter decides *)

Lemma general_plan_execve target args :
  find (rule_matches (syscall execve args)) (general_plan target)
  = if syscall_arg (syscall execve args) 0 =? scmp_datum_t target
    then None
    else Some (rule SCMP_ACT_KILL (SCMP_SYS execve)
                 [SCMP_A0 SCMP_CMP_NE (scmp_datum_t target)]).
Proof.
  unfold syscall. simpl. rewrite rule_matches_one. unfold arg_cmp_holds; simpl.
  destruct (_ =? _); reflexivity.
Qed.

Lemma general_plan_blacklist target s args :
  In s [clone; fork; vfork; kill] ->
  find (rule_matches (syscall s args)) (general_plan target)
  = Some (plain SCMP_ACT_KILL (SCMP_SYS s)).
Proof.
  intros Hs. cbn in Hs. destruct Hs as [<-|[<-|[<-|[<-|[]]]]]; reflexivity.
Qed.

(** The rules of the fallback filter for [open] (flags in argument 1) and
    [openat] (flags in argument 2). *)
Lemma general_plan_open target s i args :
  (s, i) = (open, 1%nat) \/ (s, i) = (openat, 2%nat) ->
  find (rule_matches (syscall s args)) (general_plan target)
  = if Z.land (syscall_arg (syscall s args) i) O_WRONLY =? O_WRONLY
    then Some (rule SCMP_ACT_KILL (SCMP_SYS s)
                 [SCMP_CMP i SCMP_CMP_MASKED_EQ O_WRONLY O_WRONLY])
    else if Z.land (syscall_arg (syscall s args) i) O_RDWR =? O_RDWR
    then Some (rule SCMP_ACT_KILL (SCMP_SYS s)
                 [SCMP_CMP i SCMP_CMP_MASKED_EQ O_RDWR O_RDWR])
    else None.
Proof.
  unfold syscall.
  intros [[= -> ->]|[= -> ->]]; simpl; rewrite !rule_matches_one; reflexivity.
Qed.

(** Masking with a single bit. *)
Lemma land_pow2 a k :
  0 <= k -> Z.land a (2 ^ k) = if Z.testbit a k then 2 ^ k else 0.
Proof.
  intros Hk. apply Z.bits_inj'. intros n Hn.
  rewrite Z.land_spec, Z.pow2_bits_eqb by assumption.
  destruct (Z.eqb_spec k n) as [<-|Hne].
  - rewrite andb_true_r. destruct (Z.testbit a k) eqn:E.
    + rewrite Z.pow2_bits_true by assumption. reflexivity.
    + rewrite Z.bits_0. reflexivity.
  - rewrite andb_false_r. destruct (Z.testbit a k).
    + rewrite Z.pow2_bits_false by assumption. reflexivity.
    + rewrite Z.bits_0. reflexivity.
Qed.

(** The two access-mode bits are clear exactly when neither mask matches. *)
Lemma access_mode_bits a :
  Z.land a (Z.lor O_WRONLY O_RDWR) = 0
  <-> Z.land a O_WRONLY <> O_WRONLY /\ Z.land a O_RDWR <> O_RDWR.
Proof.
  rewrite Z.land_lor_distr_r, Z.lor_eq_0_iff.
  change O_WRONLY with (2 ^ 0). change O_RDWR with (2 ^ 1).
  rewrite !land_pow2 by lia.
  change (2 ^ 0) with 1. change (2 ^ 1) with 2.
  destruct (Z.testbit a 0), (Z.testbit a 1); lia.
Qed.

(** ** Library calls of a run *)

Lemma failed_is_last good e pre x post :
  Forall (fun e => ~ failed_call e) good ->
  good ++ [e] = pre ++ x :: post ->
  failed_call x ->
  post = [].
Proof.
  intros Hgood. revert pre. induction Hgood as [|g good Hg _ IH]; intros pre Heq Hx.
  - destruct pre as [|p pre]; cbn in Heq.
    + congruence.
    + destruct pre; discriminate.
  - destruct pre as [|p pre]; cbn in Heq.
    + injection Heq as -> _. contradiction.
    + injection Heq as _ Heq. apply (IH pre Heq Hx).
Qed.

Lemma Exists_failed_last good e :
  Forall (fun e => ~ failed_call e) good ->
  Exists failed_call (good ++ [e]) <-> failed_call e.
Proof.
  induction 1 as [|g good Hg _ IH]; cbn.
  - split; [|intros H; left; exact H].
    intros H. inversion H as [? ? He|? ? He]; [exact He | inversion He].
  - rewrite <- IH. split; [|intros H; right; exact H].
    intros H. inversion H as [? ? Hx|? ? Hx]; [contradiction | exact Hx].
Qed.

Lemma accepted_adds_not_failed h rs :
  Forall (fun e => ~ failed_call e) (map (fun r => call_rule_add h r 0) rs).
Proof.
  induction rs as [|r rs IH]; cbn; constructor; [|exact IH].
  intros H. apply H. reflexivity.
Qed.

Lemma building_calls_not_failed w0 d rs :
  Forall (fun e => ~ failed_call e)
    (call_init d (new_handle w0) :: map (fun r => call_rule_add (new_handle w0) r 0) rs).
Proof.
  constructor; [cbn; discriminate | apply accepted_adds_not_failed].
Qed.

(** A run whose library calls were all accepted but possibly the last. *)
Lemma closed_run body w good e :
  trace (snd (call body w)) = trace w ++ good ++ [e] ->
  Forall (fun e => ~ failed_call e) good ->
  (fst (call body w) = 0 \/ fst (call body w) = LOAD_SECCOMP_FAILED) ->
  (fst (call body w) = LOAD_SECCOMP_FAILED <-> failed_call e) ->
  (failed_call e -> kernel_filters (snd (call body w)) = kernel_filters w) ->
  single_failure_code body w.
Proof.
  intros Htrace Hgood Hc Hfail Hkernel. split; [exact Hc|].
  exists (good ++ [e]). repeat split.
  - exact Htrace.
  - intros H. apply Exists_failed_last; [exact Hgood | apply Hfail, H].
  - intros H. apply Hfail. apply (Exists_failed_last good e Hgood), H.
  - intros pre ctx r rc post Heq Hrc.
    apply (failed_is_last good e pre _ post Hgood Heq). exact Hrc.
  - intros H. apply Hkernel. apply (Exists_failed_last good e Hgood), H.
Qed.

Lemma exits_single_failure_code lib body w d plan :
  exits lib w d plan (fst (call body w)) (snd (call body w)) ->
  single_failure_code body w.
Proof.
  intros [[Hc Hw]|[Hc Hab]].
  - apply (closed_run body w
      (call_init d (new_handle w)
       :: map (fun r => call_rule_add (new_handle w) r 0) plan
       ++ [call_load (new_handle w) 0])
      (call_release (new_handle w))).
    + rewrite Hw. cbn. rewrite <- !app_assoc. reflexivity.
    + rewrite app_comm_cons. apply Forall_app. split.
      * apply building_calls_not_failed.
      * constructor; [|constructor]. cbn. intros H. apply H. reflexivity.
    + left. exact Hc.
    + rewrite Hc. cbn. split; [discriminate | intros []].
    + intros [].
  - inversion Hab as [Hinit Hw | done r Hrc Hw | done Hrc Hw].
    + apply (closed_run body w [] (call_init d None)).
      * rewrite <- Hw. reflexivity.
      * constructor.
      * right. exact Hc.
      * split; [reflexivity | intros _; exact Hc].
      * intros _. rewrite <- Hw. reflexivity.
    + apply (closed_run body w
        (call_init d (new_handle w)
         :: map (fun r => call_rule_add (new_handle w) r 0) done)
        (call_rule_add (new_handle w) r
           (rule_add_rc lib (trace (building w d done)) r))).
      * rewrite <- Hw. cbn. rewrite <- app_assoc. reflexivity.
      * apply building_calls_not_failed.
      * right. exact Hc.
      * split; [intros _; exact Hrc | intros _; exact Hc].
      * intros _. rewrite <- Hw. reflexivity.
    + apply (closed_run body w
        (call_init d (new_handle w)
         :: map (fun r => call_rule_add (new_handle w) r 0) done)
        (call_load (new_handle w)
           (load_rc lib (trace (building w d done))
              {| def_action := d; rules := done |}))).
      * rewrite <- Hw. cbn. rewrite <- app_assoc. reflexivity.
      * apply building_calls_not_failed.
      * right. exact Hc.
      * split; [intros _; exact Hrc | intros _; exact Hc].
      * intros _. rewrite <- Hw. reflexivity.
Qed.

(** ** Successful runs exist *)

Lemma exits_lib_ok w d plan c w' :
  exits lib_ok w d plan c w' -> c = 0 /\ w' = installed w d plan.
Proof.
  intros [H|[_ Hab]]; [exact H|].
  inversion Hab as [Hinit Hw | done r Hrc Hw | done Hrc Hw]; cbn in *;
    [discriminate | contradiction | contradiction].
Qed.

(** When the library accepts every call, [c_cpp_rules] loads its plan,
    whatever the inputs and the state it starts in. *)
Lemma c_cpp_rules_installs target allow_write_file allow_network w :
  loads (c_cpp_rules lib_ok target allow_write_file allow_network) w
    {| def_action := SCMP_ACT_KILL;
       rules := c_cpp_plan target allow_write_file allow_network |}.
Proof.
  destruct (exits_lib_ok _ _ _ _ _
    (c_cpp_rules_exits lib_ok target allow_write_file allow_network w)) as [Hc Hw].
  split; [exact Hc | rewrite Hw; reflexivity].
Qed.

Lemma general_rules_installs target allow_network w :
  loads (general_rules lib_ok target allow_network) w
    {| def_action := SCMP_ACT_ALLOW; rules := general_plan target |}.
Proof.
  destruct (exits_lib_ok _ _ _ _ _
    (general_rules_exits lib_ok target allow_network w)) as [Hc Hw].
  split; [exact Hc | rewrite Hw; reflexivity].
Qed.

(** ** Release of the context *)

(** A run that gives up after [seccomp_init] succeeded leaves the context it
    got allocated: no path to [return LOAD_SECCOMP_FAILED] calls
    [seccomp_release]. *)
Lemma aborted_keeps_context lib w0 d w :
  aborted lib w0 d w ->
  init_ok lib (trace w0) d = true ->
  exists f, live_filter w (new_handle w0) = Some f.
Proof.
  intros Hab Hinit. inversion Hab as [Hno Hw | done r Hrc Hw | done Hrc Hw].
  - congruence.
  - exists {| def_action := d; rules := done |}. apply live_filter_building.
  - exists {| def_action := d; rules := done |}. apply live_filter_building.
Qed.

Lemma c_cpp_rules_failure_keeps_context lib target allow_write_file allow_network w :
  init_ok lib (trace w) SCMP_ACT_KILL = true ->
  fst (call (c_cpp_rules lib target allow_write_file allow_network) w) <> 0 ->
  exists f,
    live_filter (snd (call (c_cpp_rules lib target allow_write_file allow_network) w))
      (new_handle w) = Some f.
Proof.
  intros Hinit Hc.
  destruct (c_cpp_rules_exits lib target allow_write_file allow_network w)
    as [[H0 _]|[_ Hab]]; [contradiction|].
  apply (aborted_keeps_context lib w SCMP_ACT_KILL _ Hab Hinit).
Qed.

Lemma general_rules_failure_keeps_context lib target allow_network w :
  init_ok lib (trace w) SCMP_ACT_ALLOW = true ->
  fst (call (general_rules lib target allow_network) w) <> 0 ->
  exists f,
    live_filter (snd (call (general_rules lib target allow_network) w))
      (new_handle w) = Some f.
Proof.
  intros Hinit Hc.
  destruct (general_rules_exits lib target allow_network w)
    as [[H0 _]|[_ Hab]]; [contradiction|].
  apply (aborted_keeps_context lib w SCMP_ACT_ALLOW _ Hab Hinit).
Qed.

(** ** Sample runs *)

(** No context: the builder returns at once, having made one library call. *)
Example init_failure_run :
  call (c_cpp_rules lib_init_fails example_target true true) fresh_process
  = (LOAD_SECCOMP_FAILED, log (call_init SCMP_ACT_KILL None) fresh_process).
Proof. reflexivity. Qed.

(** The fourth rule ([mmap]) is refused: the run ends there, with three
    rules in a context that stays allocated and nothing loaded. *)
Example refused_rule_run :
  let w := snd (call (c_cpp_rules (lib_refuses_after 3) example_target true true)
                  fresh_process) in
  fst (call (c_cpp_rules (lib_refuses_after 3) example_target true true) fresh_process)
    = LOAD_SECCOMP_FAILED
  /\ kernel_filters w = []
  /\ last (trace w)
     = Some (call_rule_add (Some 0%nat) (plain SCMP_ACT_ALLOW (SCMP_SYS mmap)) (- EINVAL))
  /\ contexts w
     = [Some {| def_action := SCMP_ACT_KILL;
                rules := [rule SCMP_ACT_ALLOW (SCMP_SYS execve)
                            [SCMP_A0 SCMP_CMP_EQ example_target];
                          plain SCMP_ACT_ALLOW (SCMP_SYS read);
                          plain SCMP_ACT_ALLOW (SCMP_SYS fstat)] |}].
Proof. repeat split; reflexivity. Qed.

(** * The claims *)

(** C1 (the code does not do this). The claim: the context is released on
    every path. Run on a kernel that refuses the load, [c_cpp_rules] returns
    [LOAD_SECCOMP_FAILED] with the context it allocated (handle 0) still
    live and no [seccomp_release] among its library calls; [general_rules]
    does the same when the first rule is refused. Only the path that returns
    0 releases the context. *)
Theorem failed_runs_leave_context_live :
  (fst (call (c_cpp_rules lib_load_fails example_target false false) fresh_process)
     = LOAD_SECCOMP_FAILED
   /\ live_contexts
        (snd (call (c_cpp_rules lib_load_fails example_target false false) fresh_process))
      = [0%nat]
   /\ ~ Exists is_release
        (trace (snd (call (c_cpp_rules lib_load_fails example_target false false)
                       fresh_process))))
  /\ (fst (call (general_rules lib_add_fails example_target false) fresh_process)
        = LOAD_SECCOMP_FAILED
      /\ live_contexts
           (snd (call (general_rules lib_add_fails example_target false) fresh_process))
         = [0%nat]
      /\ ~ Exists is_release
           (trace (snd (call (general_rules lib_add_fails example_target false)
                          fresh_process))))
  /\ live_contexts
       (snd (call (c_cpp_rules lib_ok example_target false false) fresh_process))
     = [].
Proof.
  repeat split; try reflexivity.
  - vm_compute. intros H.
    repeat (inversion H as [? ? He|? ? H']; [exact He|]; clear H; rename H' into H).
    inversion H.
  - vm_compute. intros H.
    repeat (inversion H as [? ? He|? ? H']; [exact He|]; clear H; rename H' into H).
    inversion H.
Qed.

(** With write access granted, the loaded filter has no rule for [openat]
    and kills every [openat], whatever its flags. *)
Lemma c_cpp_rules_write_kills_openat lib w target allow_network f args :
  loads (c_cpp_rules lib target true allow_network) w f ->
  Forall (fun r => rule_syscall r <> SCMP_SYS openat) (rules f)
  /\ verdict f (syscall openat args) = SCMP_ACT_KILL
  /\ verdict f (syscall open args) = SCMP_ACT_ALLOW.
Proof.
  intros Hl. apply c_cpp_rules_loads in Hl as ->. unfold verdict; cbn [rules def_action].
  rewrite c_cpp_plan_write_openat, c_cpp_plan_write_open.
  split; [apply c_cpp_plan_write_no_openat | split; reflexivity].
Qed.

(** C2 (the code does not do this). The claim: with [allow_write_file] the
    policy allows both the direct-path and the directory-relative open. Run
    with [allow_write_file = true] on a library that accepts every call,
    [c_cpp_rules] loads a filter that allows [open] and [dup], but kills
    [openat] with [O_WRONLY], with [O_RDWR] and even with [O_RDONLY]: the
    branch adds [open], [dup], [dup2], [dup3] and no rule for [openat],
    which the read-only branch does add. *)
Theorem write_profile_kills_openat :
  loads (c_cpp_rules lib_ok example_target true false) fresh_process
    (c_cpp_filter example_target true false)
  /\ verdict (c_cpp_filter example_target true false)
       (syscall openat [3; example_path; O_WRONLY]) = SCMP_ACT_KILL
  /\ verdict (c_cpp_filter example_target true false)
       (syscall openat [3; example_path; O_RDWR]) = SCMP_ACT_KILL
  /\ verdict (c_cpp_filter example_target true false)
       (syscall openat [3; example_path; O_RDONLY]) = SCMP_ACT_KILL
  /\ verdict (c_cpp_filter example_target true false)
       (syscall open [example_path; O_WRONLY]) = SCMP_ACT_ALLOW
  /\ verdict (c_cpp_filter example_target true false)
       (syscall dup [3]) = SCMP_ACT_ALLOW
  /\ verdict (c_cpp_filter example_target false false)
       (syscall openat [3; example_path; O_RDONLY]) = SCMP_ACT_ALLOW.
Proof. repeat split; reflexivity. Qed.

(** C3. In the native-code profile with [allow_write_file = false], an
    [open] (flags in argument 1) or [openat] (flags in argument 2) whose flags
    have one of the bits [O_WRONLY | O_RDWR] set matches no rule and gets the
    default action, which is KILL; one whose flags have both bits clear is
    allowed. *)
Theorem c_cpp_rules_read_only_opens lib w target allow_network f args :
  loads (c_cpp_rules lib target false allow_network) w f ->
  def_action f = SCMP_ACT_KILL
  /\ (Z.land (syscall_arg (syscall open args) 1) (Z.lor O_WRONLY O_RDWR) <> 0 ->
      find (rule_matches (syscall open args)) (rules f) = None
      /\ verdict f (syscall open args) = SCMP_ACT_KILL)
  /\ (Z.land (syscall_arg (syscall open args) 1) (Z.lor O_WRONLY O_RDWR) = 0 ->
      verdict f (syscall open args) = SCMP_ACT_ALLOW)
  /\ (Z.land (syscall_arg (syscall openat args) 2) (Z.lor O_WRONLY O_RDWR) <> 0 ->
      find (rule_matches (syscall openat args)) (rules f) = None
      /\ verdict f (syscall openat args) = SCMP_ACT_KILL)
  /\ (Z.land (syscall_arg (syscall openat args) 2) (Z.lor O_WRONLY O_RDWR) = 0 ->
      verdict f (syscall openat args) = SCMP_ACT_ALLOW).
Proof.
  intros Hl. apply c_cpp_rules_loads in Hl as ->. unfold verdict; cbn [rules def_action].
  rewrite c_cpp_plan_open_read_only, c_cpp_plan_openat_read_only.
  split; [reflexivity|].
  destruct (Z.eqb_spec (Z.land (syscall_arg (syscall open args) 1)
                          (Z.lor O_WRONLY O_RDWR)) 0) as [H1|H1];
    destruct (Z.eqb_spec (Z.land (syscall_arg (syscall openat args) 2)
                            (Z.lor O_WRONLY O_RDWR)) 0) as [H2|H2];
    repeat split; intros; (reflexivity || contradiction).
Qed.

Lemma c_cpp_rules_read_only_opens_witness :
  loads (c_cpp_rules lib_ok example_target false false) fresh_process
    (c_cpp_filter example_target false false)
  /\ verdict (c_cpp_filter example_target false false)
       (syscall open [example_path; Z.lor O_WRONLY O_CREAT]) = SCMP_ACT_KILL
  /\ verdict (c_cpp_filter example_target false false)
       (syscall open [example_path; O_RDONLY]) = SCMP_ACT_ALLOW.
Proof.
  assert (Hl : loads (c_cpp_rules lib_ok example_target false false) fresh_process
                 (c_cpp_filter example_target false false))
    by (split; vm_compute; reflexivity).
  split; [exact Hl|]. split.
  - apply (c_cpp_rules_read_only_opens lib_ok fresh_process example_target false
             _ [example_path; Z.lor O_WRONLY O_CREAT] Hl).
    vm_compute. discriminate.
  - apply (c_cpp_rules_read_only_opens lib_ok fresh_process example_target false
             _ [example_path; O_RDONLY] Hl).
    vm_compute. reflexivity.
Defined.

(** C4. The filter [c_cpp_rules] loads for target [P] allows [execve]
    exactly when argument 0 equals [(scmp_datum_t) P]; with any other
    argument 0 no rule matches and the default action, KILL, applies. *)
Theorem c_cpp_rules_execve_target_only lib w target allow_write_file allow_network f args :
  loads (c_cpp_rules lib target allow_write_file allow_network) w f ->
  (verdict f (syscall execve args) = SCMP_ACT_ALLOW
   <-> syscall_arg (syscall execve args) 0 = scmp_datum_t target)
  /\ (syscall_arg (syscall execve args) 0 <> scmp_datum_t target ->
      find (rule_matches (syscall execve args)) (rules f) = None
      /\ def_action f = SCMP_ACT_KILL
      /\ verdict f (syscall execve args) = SCMP_ACT_KILL).
Proof.
  intros Hl. apply c_cpp_rules_loads in Hl as ->. unfold verdict; cbn [rules def_action].
  rewrite c_cpp_plan_execve.
  destruct (Z.eqb_spec (syscall_arg (syscall execve args) 0) (scmp_datum_t target))
    as [H|H]; cbn.
  - split; [split; intros; (reflexivity || assumption) | contradiction].
  - split; [split; intros; (discriminate || contradiction) | repeat split].
Qed.

Lemma c_cpp_rules_execve_target_only_witness :
  loads (c_cpp_rules lib_ok example_target false false) fresh_process
    (c_cpp_filter example_target false false)
  /\ verdict (c_cpp_filter example_target false false)
       (syscall execve [example_target]) = SCMP_ACT_ALLOW
  /\ verdict (c_cpp_filter example_target false false)
       (syscall execve [example_path]) = SCMP_ACT_KILL.
Proof.
  assert (Hl : loads (c_cpp_rules lib_ok example_target false false) fresh_process
                 (c_cpp_filter example_target false false))
    by (split; vm_compute; reflexivity).
  split; [exact Hl|]. split.
  - apply (c_cpp_rules_execve_target_only lib_ok fresh_process example_target
             false false _ [example_target] Hl).
    vm_compute. reflexivity.
  - apply (c_cpp_rules_execve_target_only lib_ok fresh_process example_target
             false false _ [example_path] Hl).
    vm_compute. discriminate.
Defined.

(** C5. The filter [general_rules] loads for target [P] kills [execve]
    exactly when argument 0 differs from [(scmp_datum_t) P]; with argument 0
    equal to it no rule matches and the default action, ALLOW, applies. *)
Theorem general_rules_execve_other_killed lib w target allow_network f args :
  loads (general_rules lib target allow_network) w f ->
  (verdict f (syscall execve args) = SCMP_ACT_KILL
   <-> syscall_arg (syscall execve args) 0 <> scmp_datum_t target)
  /\ (syscall_arg (syscall execve args) 0 = scmp_datum_t target ->
      find (rule_matches (syscall execve args)) (rules f) = None
      /\ def_action f = SCMP_ACT_ALLOW
      /\ verdict f (syscall execve args) = SCMP_ACT_ALLOW).
Proof.
  intros Hl. apply general_rules_loads in Hl as ->. unfold verdict; cbn [rules def_action].
  rewrite general_plan_execve.
  destruct (Z.eqb_spec (syscall_arg (syscall execve args) 0) (scmp_datum_t target))
    as [H|H]; cbn.
  - split; [split; intros; (discriminate || contradiction) | repeat split].
  - split; [split; intros; (reflexivity || assumption) | contradiction].
Qed.

Lemma general_rules_execve_other_killed_witness :
  loads (general_rules lib_ok example_target true) fresh_process
    (general_filter example_target)
  /\ verdict (general_filter example_target) (syscall execve [example_path])
     = SCMP_ACT_KILL
  /\ verdict (general_filter example_target) (syscall execve [example_target])
     = SCMP_ACT_ALLOW.
Proof.
  assert (Hl : loads (general_rules lib_ok example_target true) fresh_process
                 (general_filter example_target))
    by (split; vm_compute; reflexivity).
  split; [exact Hl|]. split.
  - apply (general_rules_execve_other_killed lib_ok fresh_process example_target
             true _ [example_path] Hl).
    vm_compute. discriminate.
  - apply (general_rules_execve_other_killed lib_ok fresh_process example_target
             true _ [example_target] Hl).
    vm_compute. reflexivity.
Defined.

Lemma general_filter_open target s i args :
  (s, i) = (open, 1%nat) \/ (s, i) = (openat, 2%nat) ->
  (Z.land (syscall_arg (syscall s args) i) O_WRONLY = O_WRONLY
   \/ Z.land (syscall_arg (syscall s args) i) O_RDWR = O_RDWR ->
   verdict (general_filter target) (syscall s args) = SCMP_ACT_KILL)
  /\ (Z.land (syscall_arg (syscall s args) i) (Z.lor O_WRONLY O_RDWR) = 0 ->
      find (rule_matches (syscall s args)) (rules (general_filter target)) = None
      /\ verdict (general_filter target) (syscall s args) = SCMP_ACT_ALLOW).
Proof.
  intros Hsi. unfold verdict, general_filter; cbn [rules def_action].
  rewrite (general_plan_open target s i args Hsi), access_mode_bits.
  destruct (Z.eqb_spec (Z.land (syscall_arg (syscall s args) i) O_WRONLY) O_WRONLY)
    as [H1|H1];
    destruct (Z.eqb_spec (Z.land (syscall_arg (syscall s args) i) O_RDWR) O_RDWR)
      as [H2|H2]; cbn; split;
    try (intros [Ha Hb]); try (intros [Ha|Ha]);
    try contradiction; repeat split; reflexivity.
Qed.

(** C6. In the filter [general_rules] loads, whatever [allow_network] is:
    [clone], [fork], [vfork] and [kill] are killed with any arguments; an
    [open] (flags in argument 1) or [openat] (flags in argument 2) is killed
    when its flags masked with [O_WRONLY] equal [O_WRONLY] or masked with
    [O_RDWR] equal [O_RDWR]; and one whose flags have both bits clear matches
    no rule, so that the default action ALLOW applies. *)
Theorem general_rules_blacklist_and_writes lib w target allow_network f args :
  loads (general_rules lib target allow_network) w f ->
  (forall s, In s [clone; fork; vfork; kill] ->
     verdict f (syscall s args) = SCMP_ACT_KILL)
  /\ (Z.land (syscall_arg (syscall open args) 1) O_WRONLY = O_WRONLY
      \/ Z.land (syscall_arg (syscall open args) 1) O_RDWR = O_RDWR ->
      verdict f (syscall open args) = SCMP_ACT_KILL)
  /\ (Z.land (syscall_arg (syscall open args) 1) (Z.lor O_WRONLY O_RDWR) = 0 ->
      find (rule_matches (syscall open args)) (rules f) = None
      /\ verdict f (syscall open args) = SCMP_ACT_ALLOW)
  /\ (Z.land (syscall_arg (syscall openat args) 2) O_WRONLY = O_WRONLY
      \/ Z.land (syscall_arg (syscall openat args) 2) O_RDWR = O_RDWR ->
      verdict f (syscall openat args) = SCMP_ACT_KILL)
  /\ (Z.land (syscall_arg (syscall openat args) 2) (Z.lor O_WRONLY O_RDWR) = 0 ->
      find (rule_matches (syscall openat args)) (rules f) = None
      /\ verdict f (syscall openat args) = SCMP_ACT_ALLOW).
Proof.
  intros Hl. apply general_rules_loads in Hl as ->.
  fold (general_filter target).
  split; [|split; [|split; [|split]]].
  - intros s Hs. unfold verdict, general_filter; cbn [rules def_action].
    rewrite (general_plan_blacklist target s args Hs). reflexivity.
  - apply (general_filter_open target open 1 args). left. reflexivity.
  - apply (general_filter_open target open 1 args). left. reflexivity.
  - apply (general_filter_open target openat 2 args). right. reflexivity.
  - apply (general_filter_open target openat 2 args). right. reflexivity.
Qed.

Lemma general_rules_blacklist_and_writes_witness :
  loads (general_rules lib_ok example_target false) fresh_process
    (general_filter example_target)
  /\ verdict (general_filter example_target) (syscall fork []) = SCMP_ACT_KILL
  /\ verdict (general_filter example_target)
       (syscall openat [3; example_path; O_RDWR]) = SCMP_ACT_KILL
  /\ verdict (general_filter example_target)
       (syscall open [example_path; O_RDONLY]) = SCMP_ACT_ALLOW.
Proof.
  assert (Hl : loads (general_rules lib_ok example_target false) fresh_process
                 (general_filter example_target))
    by (split; vm_compute; reflexivity).
  split; [exact Hl|]. split; [|split].
  - apply (general_rules_blacklist_and_writes lib_ok fresh_process example_target
             false _ [] Hl).
    cbn. tauto.
  - apply (general_rules_blacklist_and_writes lib_ok fresh_process example_target
             false _ [3; example_path; O_RDWR] Hl).
    right. vm_compute. reflexivity.
  - apply (general_rules_blacklist_and_writes lib_ok fresh_process example_target
             false _ [example_path; O_RDONLY] Hl).
    vm_compute. reflexivity.
Defined.

(** C7. [general_rules] does the same with [allow_network] true and false:
    run against the same library from the same state, the two calls return
    the same code and leave the same process state, that is the same library
    calls in the same order (the default action and each rule among them),
    the same contexts and the same loaded filters; and the filter a
    successful run loads is the same for both values of the flag, with
    default action ALLOW and the rules of [general_plan]. *)
Theorem general_rules_ignores_allow_network lib target w :
  call (general_rules lib target true) w = call (general_rules lib target false) w
  /\ forall allow_network f,
       loads (general_rules lib target allow_network) w f ->
       def_action f = SCMP_ACT_ALLOW /\ rules f = general_plan target.
Proof.
  split.
  - reflexivity.
  - intros allow_network f Hl. apply general_rules_loads in Hl as ->.
    split; reflexivity.
Qed.

(** C8. [c_cpp_rules] and [general_rules] return 0 or
    [LOAD_SECCOMP_FAILED], the latter exactly when [seccomp_init], a
    [seccomp_rule_add] or [seccomp_load] reported failure; after a refused
    rule addition they make no further library call, in particular no load;
    and whenever a call failed the kernel has no new filter. *)
Theorem builders_single_failure_code lib target allow_write_file allow_network w :
  single_failure_code (c_cpp_rules lib target allow_write_file allow_network) w
  /\ single_failure_code (general_rules lib target allow_network) w.
Proof.
  split.
  - apply (exits_single_failure_code lib _ _ _ _
             (c_cpp_rules_exits lib target allow_write_file allow_network w)).
  - apply (exits_single_failure_code lib _ _ _ _
             (general_rules_exits lib target allow_network w)).
Qed.

(** C9. [python3_rules] returns 0 for every target and leaves the process
    state as it found it: it makes no library call, so no context is created,
    no rule added and nothing loaded. *)
Theorem python3_rules_no_op target w :
  call (python3_rules target) w = (0, w).
Proof. reflexivity. Qed.

(** C10. In the filter [c_cpp_rules] loads, no rule is for [dup], [dup2]
    or [dup3] when [allow_write_file] is false, and such a call then gets the
    default action KILL; these calls are allowed exactly when
    [allow_write_file] is true. *)
Theorem c_cpp_rules_dup_needs_write lib w target allow_write_file allow_network f s args :
  loads (c_cpp_rules lib target allow_write_file allow_network) w f ->
  In s [dup; dup2; dup3] ->
  (allow_write_file = false ->
     Forall (fun r => rule_syscall r <> SCMP_SYS s) (rules f)
     /\ find (rule_matches (syscall s args)) (rules f) = None
     /\ def_action f = SCMP_ACT_KILL
     /\ verdict f (syscall s args) = SCMP_ACT_KILL)
  /\ (verdict f (syscall s args) = SCMP_ACT_ALLOW <-> allow_write_file = true).
Proof.
  intros Hl Hs. apply c_cpp_rules_loads in Hl as ->.
  unfold verdict; cbn [rules def_action].
  rewrite (c_cpp_plan_dup target allow_write_file allow_network s args Hs).
  destruct allow_write_file; cbn.
  - split; [discriminate | split; reflexivity].
  - split; [|split; discriminate].
    intros _. split; [apply c_cpp_plan_no_dup, Hs | repeat split].
Qed.

Lemma c_cpp_rules_dup_needs_write_witness :
  loads (c_cpp_rules lib_ok example_target false true) fresh_process
    (c_cpp_filter example_target false true)
  /\ In dup2 [dup; dup2; dup3]
  /\ verdict (c_cpp_filter example_target false true) (syscall dup2 [3; 4])
     = SCMP_ACT_KILL.
Proof.
  assert (Hl : loads (c_cpp_rules lib_ok example_target false true) fresh_process
                 (c_cpp_filter example_target false true))
    by (split; vm_compute; reflexivity).
  assert (Hs : In dup2 [dup; dup2; dup3]) by (right; left; reflexivity).
  split; [exact Hl|]. split; [exact Hs|].
  apply (c_cpp_rules_dup_needs_write lib_ok fresh_process example_target
           false true _ dup2 [3; 4] Hl Hs).
  reflexivity.
Defined.

(** * Further properties of the builders *)

(** ** Searching a rule list *)

Lemma find_app {A} (p : A -> bool) (l1 l2 : list A) :
  find p (l1 ++ l2) = match find p l1 with Some x => Some x | None => find p l2 end.
Proof.
  induction l1 as [|x l1 IH]; cbn; [reflexivity|].
  destruct (p x); [reflexivity | exact IH].
Qed.

Lemma find_other_syscalls d l :
  Forall (fun r => rule_syscall r <> nr d) l -> find (rule_matches d) l = None.
Proof.
  induction 1 as [|r l Hr _ IH]; cbn; [reflexivity|].
  unfold rule_matches at 1. destruct (Z.eqb_spec (rule_syscall r) (nr d)) as [E|_].
  - contradiction.
  - exact IH.
Qed.

Lemma plain_other_syscalls a n l :
  ~ In n l -> Forall (fun r => rule_syscall r <> n) (map (plain a) l).
Proof.
  induction l as [|x l IH]; cbn; intros Hn; constructor.
  - cbn. intros E. apply Hn. left. exact E.
  - apply IH. intros H. apply Hn. right. exact H.
Qed.

Lemma find_matches d l r :
  find (rule_matches d) l = Some r -> In r l /\ rule_matches d r = true.
Proof.
  induction l as [|x l IH]; cbn; [discriminate|].
  destruct (rule_matches d x) eqn:E.
  - intros [= <-]. split; [left; reflexivity | exact E].
  - intros H. destruct (IH H) as [Hin Hm]. split; [right; exact Hin | exact Hm].
Qed.

Lemma rule_matches_syscall d r : rule_matches d r = true -> rule_syscall r = nr d.
Proof.
  unfold rule_matches. intros H. apply andb_prop in H as [H _].
  apply Z.eqb_eq, H.
Qed.

(** A call that some rule matches is a call of a system call that has a
    rule. *)
Lemma find_some_syscall d l r :
  find (rule_matches d) l = Some r -> In (nr d) (map rule_syscall l).
Proof.
  intros H. apply find_matches in H as [Hin Hm].
  rewrite <- (rule_matches_syscall d r Hm). apply in_map, Hin.
Qed.

(** When all rules carry the same action, the verdict only asks whether
    some rule matches. *)
Lemma verdict_uniform a f d :
  Forall (fun r => rule_action r = a) (rules f) ->
  verdict f d = if existsb (rule_matches d) (rules f) then a else def_action f.
Proof.
  unfold verdict. induction 1 as [|r l Hr _ IH]; cbn; [reflexivity|].
  destruct (rule_matches d r); [exact Hr | exact IH].
Qed.

Lemma existsb_Permutation {A} (p : A -> bool) (l1 l2 : list A) :
  Permutation l1 l2 -> existsb p l1 = existsb p l2.
Proof.
  induction 1 as [|x l1 l2 _ IH|x y l|l1 l2 l3 _ IH1 _ IH2]; cbn.
  - reflexivity.
  - rewrite IH. reflexivity.
  - destruct (p x), (p y); reflexivity.
  - rewrite IH1. exact IH2.
Qed.

Lemma Forall_Permutation_action a (l1 l2 : list scmp_rule) :
  Permutation l1 l2 ->
  Forall (fun r => rule_action r = a) l2 ->
  Forall (fun r => rule_action r = a) l1.
Proof.
  intros Hp H. rewrite List.Forall_forall in *. intros r Hr.
  apply H. apply (Permutation_in r Hp Hr).
Qed.

Lemma c_cpp_plan_actions target allow_write_file allow_network :
  Forall (fun r => rule_action r = SCMP_ACT_ALLOW)
    (c_cpp_plan target allow_write_file allow_network).
Proof.
  destruct allow_write_file, allow_network; cbn; repeat constructor.
Qed.


Lemma c_cpp_plan_syscalls target allow_write_file allow_network :
  map rule_syscall (c_cpp_plan target allow_write_file allow_network)
  = map SCMP_SYS (c_cpp_names allow_write_file allow_network).
Proof. destruct allow_write_file, allow_network; reflexivity. Qed.

Lemma other_syscalls_of_names n l :
  ~ In n (map rule_syscall l) -> Forall (fun r => rule_syscall r <> n) l.
Proof.
  induction l as [|x l IH]; cbn; intros Hn; constructor.
  - intros E. apply Hn. left. exact E.
  - apply IH. intros H. apply Hn. right. exact H.
Qed.


(** ** The native-code profile beyond the claims *)

(** X1. In the filter [c_cpp_rules] loads, each of the eleven socket calls
    of [network_syscalls] is allowed, with any arguments, exactly when
    [allow_network] is true; when it is false no rule matches such a call and
    it gets the default action KILL. *)
Theorem c_cpp_rules_network_gate lib w target allow_write_file allow_network f s args :
  loads (c_cpp_rules lib target allow_write_file allow_network) w f ->
  In s network_names ->
  (verdict f (syscall s args) = SCMP_ACT_ALLOW <-> allow_network = true)
  /\ (allow_network = false ->
      find (rule_matches (syscall s args)) (rules f) = None
      /\ verdict f (syscall s args) = SCMP_ACT_KILL).
Proof.
  intros Hl Hs. apply c_cpp_rules_loads in Hl as ->.
  unfold network_names in Hs. cbn [In] in Hs.
  assert (Hfind : find (rule_matches (syscall s args))
                    (c_cpp_plan target allow_write_file allow_network)
                  = if allow_network then Some (plain SCMP_ACT_ALLOW (SCMP_SYS s))
                    else None).
  { repeat (destruct Hs as [<-|Hs];
            [destruct allow_write_file, allow_network; reflexivity|]).
    destruct Hs. }
  unfold verdict; cbn [rules def_action]. rewrite Hfind.
  destruct allow_network; cbn.
  - split; [split; reflexivity | discriminate].
  - split; [split; discriminate | intros _; split; reflexivity].
Qed.

Lemma c_cpp_rules_network_gate_witness :
  loads (c_cpp_rules lib_ok example_target false false) fresh_process
    (c_cpp_filter example_target false false)
  /\ In connect network_names
  /\ verdict (c_cpp_filter example_target false false) (syscall connect [3; 0; 16])
     = SCMP_ACT_KILL.
Proof.
  assert (Hl : loads (c_cpp_rules lib_ok example_target false false) fresh_process
                 (c_cpp_filter example_target false false))
    by (split; vm_compute; reflexivity).
  assert (Hs : In connect network_names) by (right; left; reflexivity).
  split; [exact Hl|]. split; [exact Hs|].
  apply (c_cpp_rules_network_gate lib_ok fresh_process example_target
           false false _ connect [3; 0; 16] Hl Hs).
  reflexivity.
Defined.

(** X2. In the filter [c_cpp_rules] loads, every system call of
    [syscalls_whitelist] is allowed with any arguments, whatever the two
    flags are; in particular [write] and [writev] stay allowed when
    [allow_write_file] is false. *)
Theorem c_cpp_rules_whitelist_allowed lib w target allow_write_file allow_network f s args :
  loads (c_cpp_rules lib target allow_write_file allow_network) w f ->
  In s whitelist_names ->
  verdict f (syscall s args) = SCMP_ACT_ALLOW.
Proof.
  intros Hl Hs. apply c_cpp_rules_loads in Hl as ->.
  unfold whitelist_names in Hs. cbn [In] in Hs.
  repeat (destruct Hs as [<-|Hs];
          [destruct allow_write_file, allow_network; reflexivity|]).
  destruct Hs.
Qed.

Lemma c_cpp_rules_whitelist_allowed_witness :
  loads (c_cpp_rules lib_ok example_target false false) fresh_process
    (c_cpp_filter example_target false false)
  /\ In write whitelist_names
  /\ verdict (c_cpp_filter example_target false false) (syscall write [1; example_path; 5])
     = SCMP_ACT_ALLOW.
Proof.
  assert (Hl : loads (c_cpp_rules lib_ok example_target false false) fresh_process
                 (c_cpp_filter example_target false false))
    by (split; vm_compute; reflexivity).
  assert (Hs : In write whitelist_names) by (vm_compute; tauto).
  split; [exact Hl|]. split; [exact Hs|].
  exact (c_cpp_rules_whitelist_allowed lib_ok fresh_process example_target
           false false _ write [1; example_path; 5] Hl Hs).
Defined.

(** X3. The native-code profile is default-deny: in the filter
    [c_cpp_rules] loads, a call of any system call other than those the
    function adds a rule for (given its flags) is killed, whatever its
    arguments; so are [clone], [fork], [vfork] and [kill], for every value of
    the flags. *)
Theorem c_cpp_rules_default_deny lib w target allow_write_file allow_network f d :
  loads (c_cpp_rules lib target allow_write_file allow_network) w f ->
  (~ In (nr d) (map SCMP_SYS (c_cpp_names allow_write_file allow_network)) ->
   find (rule_matches d) (rules f) = None /\ verdict f d = SCMP_ACT_KILL)
  /\ (forall s, In s blacklist_names ->
        verdict f (syscall s (args d)) = SCMP_ACT_KILL).
Proof.
  intros Hl. apply c_cpp_rules_loads in Hl as ->. cbn [rules]. split.
  - intros Hn. rewrite <- (c_cpp_plan_syscalls target) in Hn.
    apply other_syscalls_of_names, find_other_syscalls in Hn.
    unfold verdict; cbn [rules def_action]. rewrite Hn. split; reflexivity.
  - intros s Hs. unfold blacklist_names in Hs. cbn [In] in Hs.
    repeat (destruct Hs as [<-|Hs];
            [destruct allow_write_file, allow_network; reflexivity|]).
    destruct Hs.
Qed.

Lemma c_cpp_rules_default_deny_witness :
  loads (c_cpp_rules lib_ok example_target true true) fresh_process
    (c_cpp_filter example_target true true)
  /\ verdict (c_cpp_filter example_target true true) {| nr := 101; args := [0; 1] |}
     = SCMP_ACT_KILL.
Proof.
  assert (Hl : loads (c_cpp_rules lib_ok example_target true true) fresh_process
                 (c_cpp_filter example_target true true))
    by (split; vm_compute; reflexivity).
  split; [exact Hl|].
  apply (c_cpp_rules_default_deny lib_ok fresh_process example_target
           true true _ {| nr := 101; args := [0; 1] |} Hl).
  vm_compute. intros H.
  repeat (destruct H as [H|H]; [discriminate H|]). exact H.
Defined.

(** ** The fallback profile beyond the claims *)



(** ** Order of the rules *)

Lemma verdict_reordered a f d rs :
  Forall (fun r => rule_action r = a) (rules f) ->
  Permutation rs (rules f) ->
  verdict {| def_action := def_action f; rules := rs |} d = verdict f d.
Proof.
  intros Ha Hp.
  rewrite (verdict_uniform a f d Ha).
  rewrite (verdict_uniform a {| def_action := def_action f; rules := rs |} d);
    cbn [rules def_action].
  - rewrite (existsb_Permutation _ _ _ Hp). reflexivity.
  - apply (Forall_Permutation_action a rs (rules f) Hp Ha).
Qed.

(** X5. All rules [c_cpp_rules] adds carry the action ALLOW, so the filter
    it loads allows a call exactly when some rule matches it, and the order
    in which the rules were added does not matter: any reordering of the
    rules decides every call the same way. *)
Theorem c_cpp_rules_order_irrelevant lib w target allow_write_file allow_network f d rs :
  loads (c_cpp_rules lib target allow_write_file allow_network) w f ->
  Permutation rs (rules f) ->
  (verdict f d = SCMP_ACT_ALLOW <-> existsb (rule_matches d) (rules f) = true)
  /\ verdict {| def_action := def_action f; rules := rs |} d = verdict f d.
Proof.
  intros Hl Hp. apply c_cpp_rules_loads in Hl as ->.
  fold (c_cpp_filter target allow_write_file allow_network) in Hp |- *.
  assert (Ha : Forall (fun r => rule_action r = SCMP_ACT_ALLOW)
                 (rules (c_cpp_filter target allow_write_file allow_network)))
    by apply c_cpp_plan_actions.
  split.
  - rewrite (verdict_uniform SCMP_ACT_ALLOW _ d Ha).
    destruct (existsb _ _); split; (reflexivity || discriminate).
  - apply (verdict_reordered SCMP_ACT_ALLOW _ d rs Ha Hp).
Qed.

Lemma c_cpp_rules_order_irrelevant_witness :
  loads (c_cpp_rules lib_ok example_target false false) fresh_process
    (c_cpp_filter example_target false false)
  /\ Permutation (rev (rules (c_cpp_filter example_target false false)))
       (rules (c_cpp_filter example_target false false))
  /\ verdict {| def_action := SCMP_ACT_KILL;
                rules := rev (rules (c_cpp_filter example_target false false)) |}
       (syscall open [example_path; O_RDONLY])
     = verdict (c_cpp_filter example_target false false)
         (syscall open [example_path; O_RDONLY]).
Proof.
  assert (Hl : loads (c_cpp_rules lib_ok example_target false false) fresh_process
                 (c_cpp_filter example_target false false))
    by (split; vm_compute; reflexivity).
  assert (Hp : Permutation (rev (rules (c_cpp_filter example_target false false)))
                 (rules (c_cpp_filter example_target false false)))
    by (apply Permutation_sym, Permutation_rev).
  split; [exact Hl|]. split; [exact Hp|].
  apply (c_cpp_rules_order_irrelevant lib_ok fresh_process example_target
           false false _ (syscall open [example_path; O_RDONLY]) _ Hl Hp).
Defined.



(** ** What each flag changes *)

(** The plan of [c_cpp_rules] in its four blocks. *)
Lemma c_cpp_plan_find target allow_write_file allow_network d :
  find (rule_matches d) (c_cpp_plan target allow_write_file allow_network)
  = match find (rule_matches d)
            ([rule SCMP_ACT_ALLOW (SCMP_SYS execve)
                [SCMP_A0 SCMP_CMP_EQ (scmp_datum_t target)]]
             ++ map (plain SCMP_ACT_ALLOW) (map SCMP_SYS whitelist_names)) with
    | Some r => Some r
    | None =>
        match find (rule_matches d)
                (if allow_network
                 then map (plain SCMP_ACT_ALLOW) (map SCMP_SYS network_names)
                 else []) with
        | Some r => Some r
        | None =>
            find (rule_matches d)
              (if negb allow_write_file
               then [rule SCMP_ACT_ALLOW (SCMP_SYS open)
                       [SCMP_CMP 1 SCMP_CMP_MASKED_EQ (Z.lor O_WRONLY O_RDWR) 0];
                     rule SCMP_ACT_ALLOW (SCMP_SYS openat)
                       [SCMP_CMP 2 SCMP_CMP_MASKED_EQ (Z.lor O_WRONLY O_RDWR) 0]]
               else map (plain SCMP_ACT_ALLOW)
                      (map SCMP_SYS [open; dup; dup2; dup3]))
        end
    end.
Proof.
  rewrite <- !find_app, <- app_assoc. reflexivity.
Qed.

(** X7. [allow_network] changes the decision of the native-code filter for
    the eleven socket calls only: on any call of another system call, the
    filters loaded with [allow_network] true and false (same target, same
    [allow_write_file]) decide alike; and whatever the filter loaded with
    [allow_network] false allows, the one loaded with true allows too. *)
Theorem allow_network_changes_sockets_only
    lib1 lib0 w1 w0 target allow_write_file f1 f0 d :
  loads (c_cpp_rules lib1 target allow_write_file true) w1 f1 ->
  loads (c_cpp_rules lib0 target allow_write_file false) w0 f0 ->
  (~ In (nr d) (map SCMP_SYS network_names) -> verdict f1 d = verdict f0 d)
  /\ (verdict f0 d = SCMP_ACT_ALLOW -> verdict f1 d = SCMP_ACT_ALLOW).
Proof.
  intros H1 H0. apply c_cpp_rules_loads in H1 as ->. apply c_cpp_rules_loads in H0 as ->.
  unfold verdict; cbn [rules def_action]. rewrite !c_cpp_plan_find.
  destruct (find (rule_matches d) (_ ++ _)) as [r|] eqn:Efirst.
  { split; intros; [reflexivity | assumption]. }
  cbn [find]. split.
  - intros Hn.
    rewrite (find_other_syscalls d _
               (plain_other_syscalls SCMP_ACT_ALLOW (nr d) _ Hn)).
    reflexivity.
  - destruct (find (rule_matches d)
                (map (plain SCMP_ACT_ALLOW) (map SCMP_SYS network_names)))
      as [r|] eqn:Enet; [|exact (fun H => H)].
    intros _. apply find_matches in Enet as [Hin _].
    apply in_map_iff in Hin as (n & <- & _). reflexivity.
Qed.

Lemma allow_network_changes_sockets_only_witness :
  loads (c_cpp_rules lib_ok example_target false true) fresh_process
    (c_cpp_filter example_target false true)
  /\ loads (c_cpp_rules lib_ok example_target false false) fresh_process
       (c_cpp_filter example_target false false)
  /\ verdict (c_cpp_filter example_target false true)
       (syscall openat [3; example_path; O_RDONLY])
     = verdict (c_cpp_filter example_target false false)
         (syscall openat [3; example_path; O_RDONLY]).
Proof.
  assert (H1 : loads (c_cpp_rules lib_ok example_target false true) fresh_process
                 (c_cpp_filter example_target false true))
    by (split; vm_compute; reflexivity).
  assert (H0 : loads (c_cpp_rules lib_ok example_target false false) fresh_process
                 (c_cpp_filter example_target false false))
    by (split; vm_compute; reflexivity).
  split; [exact H1|]. split; [exact H0|].
  apply (proj1 (allow_network_changes_sockets_only lib_ok lib_ok fresh_process
                  fresh_process example_target false _ _
                  (syscall openat [3; example_path; O_RDONLY]) H1 H0)).
  vm_compute. intros H.
  repeat (destruct H as [H|H]; [discriminate H|]). exact H.
Defined.

(** X8. [allow_write_file] changes the decision of the native-code filter
    for [open], [openat], [dup], [dup2] and [dup3] only: on any call of
    another system call, the filters loaded with [allow_write_file] true and
    false (same target, same [allow_network]) decide alike. *)
Theorem allow_write_file_changes_file_calls_only
    lib1 lib0 w1 w0 target allow_network f1 f0 d :
  loads (c_cpp_rules lib1 target true allow_network) w1 f1 ->
  loads (c_cpp_rules lib0 target false allow_network) w0 f0 ->
  ~ In (nr d) (map SCMP_SYS file_names) ->
  verdict f1 d = verdict f0 d.
Proof.
  intros H1 H0 Hn.
  apply c_cpp_rules_loads in H1 as ->. apply c_cpp_rules_loads in H0 as ->.
  unfold verdict; cbn [rules def_action]. rewrite !c_cpp_plan_find.
  destruct (find (rule_matches d) (_ ++ _)) as [r|]; [reflexivity|].
  destruct (find (rule_matches d) (if allow_network then _ else _)) as [r|];
    [reflexivity|].
  cbn [negb].
  rewrite (find_other_syscalls d
             (map (plain SCMP_ACT_ALLOW) (map SCMP_SYS [open; dup; dup2; dup3]))).
  - rewrite find_other_syscalls; [reflexivity|].
    repeat constructor; cbn; intros E; apply Hn; rewrite <- E; cbn; tauto.
  - apply plain_other_syscalls. intros H. apply Hn. cbn in H |- *. tauto.
Qed.

Lemma allow_write_file_changes_file_calls_only_witness :
  loads (c_cpp_rules lib_ok example_target true false) fresh_process
    (c_cpp_filter example_target true false)
  /\ loads (c_cpp_rules lib_ok example_target false false) fresh_process
       (c_cpp_filter example_target false false)
  /\ verdict (c_cpp_filter example_target true false) (syscall execve [example_path])
     = verdict (c_cpp_filter example_target false false) (syscall execve [example_path]).
Proof.
  assert (H1 : loads (c_cpp_rules lib_ok example_target true false) fresh_process
                 (c_cpp_filter example_target true false))
    by (split; vm_compute; reflexivity).
  assert (H0 : loads (c_cpp_rules lib_ok example_target false false) fresh_process
                 (c_cpp_filter example_target false false))
    by (split; vm_compute; reflexivity).
  split; [exact H1|]. split; [exact H0|].
  apply (allow_write_file_changes_file_calls_only lib_ok lib_ok fresh_process
           fresh_process example_target false _ _ (syscall execve [example_path]) H1 H0).
  vm_compute. intros H.
  repeat (destruct H as [H|H]; [discriminate H|]). exact H.
Defined.

(** ** Contexts and loaded filters across a run *)

Lemma live_from_app h cs cs' :
  live_from h (cs ++ cs') = live_from h cs ++ live_from (h + length cs) cs'.
Proof.
  revert h. induction cs as [|[f|] cs IH]; intros h; cbn [live_from app length].
  - rewrite Nat.add_0_r. reflexivity.
  - rewrite IH, Nat.add_succ_comm. reflexivity.
  - rewrite IH, Nat.add_succ_comm. reflexivity.
Qed.

Lemma live_contexts_released w cs :
  contexts w = cs ++ [None] -> live_contexts w = live_from 0 cs.
Proof.
  intros H. unfold live_contexts. rewrite H, live_from_app. cbn.
  apply app_nil_r.
Qed.

Lemma live_contexts_kept w cs f :
  contexts w = cs ++ [Some f] -> live_contexts w = live_from 0 cs ++ [length cs].
Proof.
  intros H. unfold live_contexts. rewrite H, live_from_app. reflexivity.
Qed.

(** What a run does to the contexts and to the loaded filters, read off
    its exit. *)
Lemma exits_contexts lib w d plan c w' :
  exits lib w d plan c w' ->
  (c = 0 -> contexts w' = contexts w ++ [None]
            /\ kernel_filters w' = kernel_filters w ++ [{| def_action := d; rules := plan |}])
  /\ (c <> 0 -> kernel_filters w' = kernel_filters w
                /\ (contexts w' = contexts w
                    \/ exists done, contexts w'
                         = contexts w ++ [Some {| def_action := d; rules := done |}]))
  /\ (c <> 0 -> init_ok lib (trace w) d = true ->
      exists done, contexts w' = contexts w ++ [Some {| def_action := d; rules := done |}]).
Proof.
  intros [[-> ->]|[-> Hab]].
  - split; [|split]; [intros _; split; reflexivity | intros H; destruct (H eq_refl)
                     | intros H; destruct (H eq_refl)].
  - split; [discriminate|].
    inversion Hab as [Hinit Hw | done r Hrc Hw | done Hrc Hw]; cbn.
    + split; [intros _; split; [reflexivity | left; reflexivity] | congruence].
    + split; [intros _; split; [reflexivity | right; exists done; reflexivity]
             | intros _ _; exists done; reflexivity].
    + split; [intros _; split; [reflexivity | right; exists done; reflexivity]
             | intros _ _; exists done; reflexivity].
Qed.

(** X9. A call of [c_cpp_rules] or [general_rules] never touches what was
    there before: the contexts and the loaded filters of the process it
    started in are still there, unchanged and in place, with at most one
    context slot and at most one filter appended. *)
Theorem builders_keep_earlier_state lib target allow_write_file allow_network w :
  (exists cs fs,
     contexts (snd (call (c_cpp_rules lib target allow_write_file allow_network) w))
       = contexts w ++ cs
     /\ kernel_filters (snd (call (c_cpp_rules lib target allow_write_file allow_network) w))
        = kernel_filters w ++ fs
     /\ (length cs <= 1)%nat /\ (length fs <= 1)%nat)
  /\ (exists cs fs,
        contexts (snd (call (general_rules lib target allow_network) w))
          = contexts w ++ cs
        /\ kernel_filters (snd (call (general_rules lib target allow_network) w))
           = kernel_filters w ++ fs
        /\ (length cs <= 1)%nat /\ (length fs <= 1)%nat).
Proof.
  assert (Hgen : forall d plan c w',
            exits lib w d plan c w' ->
            exists cs fs, contexts w' = contexts w ++ cs
                          /\ kernel_filters w' = kernel_filters w ++ fs
                          /\ (length cs <= 1)%nat /\ (length fs <= 1)%nat).
  { intros d plan c w' Hex.
    destruct (exits_contexts lib w d plan c w' Hex) as (H0 & H1 & _).
    destruct (Z.eq_dec c 0) as [Hc|Hc].
    - destruct (H0 Hc) as [Hcs Hfs]. eexists _, _.
      split; [exact Hcs|]. split; [exact Hfs|]. cbn. lia.
    - destruct (H1 Hc) as [Hfs [Hcs|[done Hcs]]].
      + exists [], []. rewrite !app_nil_r. repeat split; cbn; (assumption || lia).
      + exists [Some {| def_action := d; rules := done |}], [].
        rewrite app_nil_r.
        split; [exact Hcs|]. split; [exact Hfs|]. cbn. lia. }
  split.
  - apply (Hgen _ _ _ _ (c_cpp_rules_exits lib target allow_write_file allow_network w)).
  - apply (Hgen _ _ _ _ (general_rules_exits lib target allow_network w)).
Qed.

(** X10. The builders release their context exactly on the path that
    returns 0: after a call that returns 0 the live contexts are those from
    before the call; after a call that returns another code although
    [seccomp_init] had succeeded, the context of this call is live in
    addition to them. *)
Theorem context_released_only_on_success lib target allow_write_file allow_network w :
  ((fst (call (c_cpp_rules lib target allow_write_file allow_network) w) = 0 ->
    live_contexts (snd (call (c_cpp_rules lib target allow_write_file allow_network) w))
      = live_contexts w)
   /\ (fst (call (c_cpp_rules lib target allow_write_file allow_network) w) <> 0 ->
       init_ok lib (trace w) SCMP_ACT_KILL = true ->
       live_contexts (snd (call (c_cpp_rules lib target allow_write_file allow_network) w))
         = live_contexts w ++ [length (contexts w)]))
  /\ ((fst (call (general_rules lib target allow_network) w) = 0 ->
       live_contexts (snd (call (general_rules lib target allow_network) w))
         = live_contexts w)
      /\ (fst (call (general_rules lib target allow_network) w) <> 0 ->
          init_ok lib (trace w) SCMP_ACT_ALLOW = true ->
          live_contexts (snd (call (general_rules lib target allow_network) w))
            = live_contexts w ++ [length (contexts w)])).
Proof.
  assert (Hgen : forall d plan c w',
            exits lib w d plan c w' ->
            (c = 0 -> live_contexts w' = live_contexts w)
            /\ (c <> 0 -> init_ok lib (trace w) d = true ->
                live_contexts w' = live_contexts w ++ [length (contexts w)])).
  { intros d plan c w' Hex.
    destruct (exits_contexts lib w d plan c w' Hex) as (H0 & _ & H2). split.
    - intros Hc. destruct (H0 Hc) as [Hcs _]. apply (live_contexts_released w' _ Hcs).
    - intros Hc Hinit. destruct (H2 Hc Hinit) as [done Hcs].
      apply (live_contexts_kept w' _ _ Hcs). }
  split.
  - apply (Hgen _ _ _ _ (c_cpp_rules_exits lib target allow_write_file allow_network w)).
  - apply (Hgen _ _ _ _ (general_rules_exits lib target allow_network w)).
Qed.

(** X11. When [seccomp_init] returns the null pointer, both builders
    return [LOAD_SECCOMP_FAILED] at once: that call is the only library call
    they make, no context exists and nothing is loaded. *)
Theorem init_failure_returns_at_once lib target allow_write_file allow_network w :
  (forall d, init_ok lib (trace w) d = false) ->
  call (c_cpp_rules lib target allow_write_file allow_network) w
    = (LOAD_SECCOMP_FAILED, log (call_init SCMP_ACT_KILL None) w)
  /\ call (general_rules lib target allow_network) w
     = (LOAD_SECCOMP_FAILED, log (call_init SCMP_ACT_ALLOW None) w).
Proof.
  intros Hinit. split.
  - unfold call, c_cpp_rules, bindM, seccomp_init at 1.
    rewrite (Hinit SCMP_ACT_KILL). reflexivity.
  - unfold call, general_rules, bindM, seccomp_init at 1.
    rewrite (Hinit SCMP_ACT_ALLOW). reflexivity.
Qed.

Lemma init_failure_returns_at_once_witness :
  (forall d, init_ok lib_init_fails (trace fresh_process) d = false)
  /\ call (c_cpp_rules lib_init_fails example_target true true) fresh_process
     = (LOAD_SECCOMP_FAILED, log (call_init SCMP_ACT_KILL None) fresh_process)
  /\ call (general_rules lib_init_fails example_target true) fresh_process
     = (LOAD_SECCOMP_FAILED, log (call_init SCMP_ACT_ALLOW None) fresh_process).
Proof.
  assert (H : forall d, init_ok lib_init_fails (trace fresh_process) d = false)
    by (intros d; reflexivity).
  split; [exact H|].
  exact (init_failure_returns_at_once lib_init_fails example_target true true
           fresh_process H).
Defined.

(** ** Runs against a library that accepts every call *)

Lemma exits_accepting lib w d plan c w' :
  accepts_all lib ->
  exits lib w d plan c w' -> c = 0 /\ w' = installed w d plan.
Proof.
  intros (Hinit & Hadd & Hload) [H|[_ Hab]]; [exact H|].
  inversion Hab as [Hno Hw | done r Hrc Hw | done Hrc Hw].
  - rewrite Hinit in Hno. discriminate.
  - destruct (Hrc (Hadd _ _)).
  - destruct (Hrc (Hload _ _)).
Qed.

Lemma lib_ok_accepts_all : accepts_all lib_ok.
Proof. repeat split. Qed.

(** X12. Against a library and kernel that accept every call, both
    builders succeed for every target, every value of the flags and every
    state they start in: they return 0, the kernel has their filter as its
    newest one, and the live contexts are those from before the call. *)
Theorem accepting_library_installs lib target allow_write_file allow_network w :
  accepts_all lib ->
  (loads (c_cpp_rules lib target allow_write_file allow_network) w
     (c_cpp_filter target allow_write_file allow_network)
   /\ live_contexts (snd (call (c_cpp_rules lib target allow_write_file allow_network) w))
      = live_contexts w)
  /\ (loads (general_rules lib target allow_network) w (general_filter target)
      /\ live_contexts (snd (call (general_rules lib target allow_network) w))
         = live_contexts w).
Proof.
  intros Hlib. split.
  - destruct (exits_accepting lib _ _ _ _ _ Hlib
                (c_cpp_rules_exits lib target allow_write_file allow_network w))
      as [Hc Hw].
    split; [split; [exact Hc | rewrite Hw; reflexivity]|].
    rewrite Hw. apply (live_contexts_released _ (contexts w)). reflexivity.
  - destruct (exits_accepting lib _ _ _ _ _ Hlib
                (general_rules_exits lib target allow_network w)) as [Hc Hw].
    split; [split; [exact Hc | rewrite Hw; reflexivity]|].
    rewrite Hw. apply (live_contexts_released _ (contexts w)). reflexivity.
Qed.

Lemma accepting_library_installs_witness :
  accepts_all lib_ok
  /\ loads (c_cpp_rules lib_ok example_target false true) fresh_process
       (c_cpp_filter example_target false true)
  /\ loads (general_rules lib_ok example_target false) fresh_process
       (general_filter example_target).
Proof.
  assert (H : accepts_all lib_ok) by (repeat split).
  split; [exact H|].
  destruct (accepting_library_installs lib_ok example_target false true
              fresh_process H) as [[H1 _] [H2 _]].
  split; [exact H1 | exact H2].
Defined.



(** ** The order of the library calls *)

(** X14. When [c_cpp_rules] returns 0, its library calls were, in this
    order: [seccomp_init] with default action KILL, one accepted
    [seccomp_rule_add] per rule of its plan in program order (28 rules, plus
    11 with [allow_network], plus 4 with [allow_write_file] and 2 without),
    one [seccomp_load] and one [seccomp_release], all on the context it got
    from [seccomp_init]; the loaded filter holds all these rules. *)
Theorem c_cpp_rules_complete_run lib target allow_write_file allow_network w :
  fst (call (c_cpp_rules lib target allow_write_file allow_network) w) = 0 ->
  trace (snd (call (c_cpp_rules lib target allow_write_file allow_network) w))
    = trace w
      ++ complete_run w SCMP_ACT_KILL (c_cpp_plan target allow_write_file allow_network)
  /\ kernel_filters (snd (call (c_cpp_rules lib target allow_write_file allow_network) w))
     = kernel_filters w ++ [c_cpp_filter target allow_write_file allow_network]
  /\ length (c_cpp_plan target allow_write_file allow_network)
     = (28 + (if allow_network then 11 else 0)
        + (if allow_write_file then 4 else 2))%nat.
Proof.
  intros Hc.
  destruct (c_cpp_rules_exits lib target allow_write_file allow_network w)
    as [[_ Hw]|[Hc' _]]; [|rewrite Hc in Hc'; discriminate].
  rewrite Hw. split; [|split].
  - unfold complete_run. cbn. rewrite <- !app_assoc. reflexivity.
  - reflexivity.
  - destruct allow_write_file, allow_network; reflexivity.
Qed.

Lemma c_cpp_rules_complete_run_witness :
  fst (call (c_cpp_rules lib_ok example_target true true) fresh_process) = 0
  /\ length (trace (snd (call (c_cpp_rules lib_ok example_target true true)
                           fresh_process))) = 46%nat.
Proof.
  assert (H : fst (call (c_cpp_rules lib_ok example_target true true) fresh_process) = 0)
    by reflexivity.
  split; [exact H|].
  destruct (c_cpp_rules_complete_run lib_ok example_target true true fresh_process H)
    as [Htrace _].
  rewrite Htrace. reflexivity.
Defined.

(** X15. When [general_rules] returns 0, its library calls were, in this
    order: [seccomp_init] with default action ALLOW, the nine accepted rule
    additions of its plan in program order, one [seccomp_load] and one
    [seccomp_release], all on the context it got from [seccomp_init]; the
    loaded filter holds the nine rules. *)
Theorem general_rules_complete_run lib target allow_network w :
  fst (call (general_rules lib target allow_network) w) = 0 ->
  trace (snd (call (general_rules lib target allow_network) w))
    = trace w ++ complete_run w SCMP_ACT_ALLOW (general_plan target)
  /\ kernel_filters (snd (call (general_rules lib target allow_network) w))
     = kernel_filters w ++ [general_filter target]
  /\ length (general_plan target) = 9%nat.
Proof.
  intros Hc.
  destruct (general_rules_exits lib target allow_network w)
    as [[_ Hw]|[Hc' _]]; [|rewrite Hc in Hc'; discriminate].
  rewrite Hw. split; [|split].
  - unfold complete_run. cbn. rewrite <- !app_assoc. reflexivity.
  - reflexivity.
  - reflexivity.
Qed.

Lemma general_rules_complete_run_witness :
  fst (call (general_rules lib_ok example_target false) fresh_process) = 0
  /\ length (trace (snd (call (general_rules lib_ok example_target false)
                           fresh_process))) = 12%nat.
Proof.
  assert (H : fst (call (general_rules lib_ok example_target false) fresh_process) = 0)
    by reflexivity.
  split; [exact H|].
  destruct (general_rules_complete_run lib_ok example_target false fresh_process H)
    as [Htrace _].
  rewrite Htrace. reflexivity.
Defined.

(** X16. [c_cpp_rules] never adds two rules for the same system call: in
    the filter it loads, the system-call numbers of the rules are pairwise
    different, for every value of the flags. *)
Theorem c_cpp_rules_one_rule_per_syscall lib w target allow_write_file allow_network f :
  loads (c_cpp_rules lib target allow_write_file allow_network) w f ->
  NoDup (map rule_syscall (rules f)).
Proof.
  intros Hl. apply c_cpp_rules_loads in Hl as ->. cbn [rules].
  rewrite c_cpp_plan_syscalls.
  destruct allow_write_file, allow_network;
    apply (bool_decide_unpack _); vm_compute; exact I.
Qed.

Lemma c_cpp_rules_one_rule_per_syscall_witness :
  loads (c_cpp_rules lib_ok example_target true true) fresh_process
    (c_cpp_filter example_target true true)
  /\ NoDup (map rule_syscall (rules (c_cpp_filter example_target true true))).
Proof.
  assert (Hl : loads (c_cpp_rules lib_ok example_target true true) fresh_process
                 (c_cpp_filter example_target true true))
    by (split; vm_compute; reflexivity).
  split; [exact Hl|].
  exact (c_cpp_rules_one_rule_per_syscall lib_ok fresh_process example_target
           true true _ Hl).
Defined.
